(** * twitterNLP: the comment sentiment aggregator of [backend/NLP/analysis.py]

    A shallow embedding of the three functions of the module,
    [vader_sentiment_analysis], [huggingface_sentiment_analysis] and
    [comments_sentiment_analysis], and the properties of them that the
    specification states.

    - Python floats are IEEE 754 binary64 numbers; they are modelled by
      [spec_float] with the binary64 parameters, so that sums and quotients
      round as they do in the interpreter.
    - Python strings are modelled by [string]; the order of strings, which
      sorts the keys, is the lexicographic order of their characters.
    - Python exceptions are modelled by a result type.
    - A [dict] is an association list with pairwise distinct keys, in insertion
      order (which is the order [items()] iterates in).
    - The NLTK analyzer and the transformers pipeline are libraries outside the
      module: they are parameters of the model. *)

From Stdlib Require Import ZArith List String Ascii Bool Arith Lia.
From Stdlib Require Import SpecFloat Sorted Permutation.
Import ListNotations.

Local Open Scope string_scope.
Local Open Scope list_scope.

(** ** Binary64 floats *)

Module Float.

Definition float : Type := spec_float.

Definition prec : Z := 53.
Definition emax : Z := 1024.

Definition add : float -> float -> float := SFadd prec emax.
Definition div : float -> float -> float := SFdiv prec emax.
Definition neg : float -> float := SFopp.

(** [float(n)] for a non-negative integer, rounded to nearest even. *)
Definition of_nat (n : nat) : float :=
  binary_normalize prec emax (Z.of_nat n) 0 false.

(** The comparisons [x < y], [x > y], [x <= y] and [x == y]; all four are
    false as soon as one side is a NaN. *)
Definition ltb (x y : float) : bool := SFltb x y.
Definition gtb (x y : float) : bool :=
  match SFcompare x y with Some Gt => true | _ => false end.
Definition leb (x y : float) : bool := SFleb x y.
Definition eqb (x y : float) : bool := SFeqb x y.

Definition is_nan (x : float) : bool :=
  match x with S754_nan => true | _ => false end.


(** Same representation: sign, mantissa and exponent agree. *)
Definition same (x y : float) : bool :=
  match x, y with
  | S754_zero s1, S754_zero s2 => Bool.eqb s1 s2
  | S754_infinity s1, S754_infinity s2 => Bool.eqb s1 s2
  | S754_nan, S754_nan => true
  | S754_finite s1 m1 e1, S754_finite s2 m2 e2 =>
      Bool.eqb s1 s2 && Pos.eqb m1 m2 && Z.eqb e1 e2
  | _, _ => false
  end.

Definition zero : float := S754_zero false.
Definition one : float := S754_finite false 4503599627370496 (-52).
Definition minus_one : float := neg one.

(** [-1 <= x <= 1] *)
Definition in_unit (x : float) : bool := leb minus_one x && leb x one.

(** [0 <= x <= 1] *)
Definition in_01 (x : float) : bool := leb zero x && leb x one.




End Float.

Abbreviation float := Float.float.

(** ** Exceptions *)

Inductive exception : Type :=
| ZeroDivisionError
| ValueError
| IndexError.

Inductive result (A : Type) : Type :=
| Ok (a : A)
| Raise (e : exception).

Arguments Ok {A} a.
Arguments Raise {A} e.

Definition bind {A B : Type} (c : result A) (k : A -> result B) : result B :=
  match c with
  | Ok a => k a
  | Raise e => Raise e
  end.

Notation "x <- c ;; k" := (bind c (fun x => k))
  (at level 61, c at next level, right associativity).

(** ** The builtins the module uses *)

(** [sum(l)]: the items are added from left to right, starting from the
    integer [0], which the first addition turns into [0.0]. *)
Definition py_sum (l : list float) : float :=
  fold_left Float.add l Float.zero.


(** [s / n] where [n] is a [len(...)]: the integer is converted to a float and
    a zero divisor raises.  ([sum([])] is the integer [0]; [0 / 0] raises the
    same exception.) *)
Definition py_truediv (s : float) (n : nat) : result float :=
  match n with
  | O => Raise ZeroDivisionError
  | S _ => Ok (Float.div s (Float.of_nat n))
  end.

(** [max(l)]: the first item is the candidate, and a later item replaces it
    only when it compares strictly greater. *)
Definition py_max (l : list float) : result float :=
  match l with
  | [] => Raise ValueError
  | x :: xs =>
      Ok (fold_left (fun best item => if Float.gtb item best then item else best) xs x)
  end.

(** [min(l)], with [<] in place of [>]. *)
Definition py_min (l : list float) : result float :=
  match l with
  | [] => Raise ValueError
  | x :: xs =>
      Ok (fold_left (fun best item => if Float.ltb item best then item else best) xs x)
  end.

(** The test [list.index] applies to each item: the item is the very object
    searched for, or it compares [==] to it.  Objects have no identity in the
    model, and sameness of representation stands for it.  The two differ on
    NaNs only, the floats that are not [==] to themselves; and the float
    searched for is here the result of [max] or [min], which is a NaN only
    when the first item of the list is that NaN, where either test succeeds. *)
Definition py_eq (item x : float) : bool :=
  Float.same item x || Float.eqb item x.

(** [l.index(x)]: the position of the first item that passes the test. *)
Fixpoint py_index (l : list float) (x : float) : result nat :=
  match l with
  | [] => Raise ValueError
  | item :: l' =>
      if py_eq item x then Ok O
      else (i <- py_index l' x ;; Ok (S i))
  end.

(** [l[i]] for a non-negative index. *)
Definition py_getitem {A : Type} (l : list A) (i : nat) : result A :=
  match nth_error l i with
  | Some a => Ok a
  | None => Raise IndexError
  end.

(** ** Dictionaries *)

Definition dict (V : Type) : Type := list (string * V).

Definition dict_keys {V : Type} (d : dict V) : list string := map fst d.

Definition dict_wf {V : Type} (d : dict V) : Prop := NoDup (dict_keys d).

Fixpoint dict_get {V : Type} (d : dict V) (k : string) : option V :=
  match d with
  | [] => None
  | (k', v) :: d' => if String.eqb k' k then Some v else dict_get d' k
  end.

(** [d[k] = v]: an existing key keeps its place, a new key goes last. *)
Fixpoint dict_set {V : Type} (d : dict V) (k : string) (v : V) : dict V :=
  match d with
  | [] => [(k, v)]
  | (k', v') :: d' =>
      if String.eqb k' k then (k', v) :: d' else (k', v') :: dict_set d' k v
  end.

(** [dict(items)] *)
Definition dict_of_items {V : Type} (items : list (string * V)) : dict V :=
  fold_left (fun d kv => dict_set d (fst kv) (snd kv)) items [].

(** [sorted(items, key=lambda x: x[0])]: a stable sort that compares the keys
    with [<] only. *)
Fixpoint insert_by_key {V : Type} (x : string * V) (l : list (string * V))
  : list (string * V) :=
  match l with
  | [] => [x]
  | y :: l' =>
      if String.ltb (fst y) (fst x) then y :: insert_by_key x l' else x :: l
  end.

Fixpoint sorted_by_key {V : Type} (items : list (string * V)) : list (string * V) :=
  match items with
  | [] => []
  | x :: items' => insert_by_key x (sorted_by_key items')
  end.

(** ** The two libraries *)

(** The dictionary [polarity_scores] returns. *)
Record polarity : Type := {
  neg : float;
  neu : float;
  pos : float;
  compound : float
}.

Record SentimentIntensityAnalyzer : Type := {
  polarity_scores : string -> polarity
}.

(** The first (and only) entry of the list the pipeline returns for one text. *)
Record classification : Type := {
  label : string;
  score : float
}.

Record Pipeline : Type := {
  tokenize : string -> list string;
  convert_tokens_to_string : list string -> string;
  classify : string -> classification
}.

(** The contracts of the two libraries. *)
Definition analyzer_bounded (analyzer : SentimentIntensityAnalyzer) : Prop :=
  forall comment, Float.in_unit (compound (polarity_scores analyzer comment)) = true.

Definition pipeline_bounded (sentiment_pipeline : Pipeline) : Prop :=
  forall text, Float.in_01 (score (classify sentiment_pipeline text)) = true.



(** ** The module *)

Record GroupSummary : Type := {
  avg_sentiment : float;
  max_sentiment_comment : string;
  max_sentiment : float;
  min_sentiment_comment : string;
  min_sentiment : float
}.

Section Analysis.

Variable analyzer : SentimentIntensityAnalyzer.
Variable sentiment_pipeline : Pipeline.

Definition vader_sentiment_analysis (comments : list string) : list float :=
  fold_left
    (fun sentiment_scores comment =>
       let sentiment := polarity_scores analyzer comment in
       sentiment_scores ++ [compound sentiment])
    comments [].

(** The body of the loop of [huggingface_sentiment_analysis]. *)
Definition classify_comment (sentiment_scores : list classification) (comment : string)
  : list classification :=
  let tokenized_comment := tokenize sentiment_pipeline comment in
  if Nat.ltb (List.length tokenized_comment) 510 then
    let tokenized_comment := firstn 510 tokenized_comment in
    let truncated_comment :=
      convert_tokens_to_string sentiment_pipeline tokenized_comment in
    let sentiment := classify sentiment_pipeline truncated_comment in
    sentiment_scores ++ [sentiment]
  else sentiment_scores.

(** The element of the list comprehension that closes it. *)
Definition signed_score (sentiment : classification) : float :=
  if String.eqb (label sentiment) "POSITIVE" then score sentiment
  else Float.neg (score sentiment).

Definition huggingface_sentiment_analysis (comments : list string) : list float :=
  let sentiment_scores := fold_left classify_comment comments [] in
  map signed_score sentiment_scores.

(** What either branch of [comments_sentiment_analysis] computes for a group
    once its comments are scored. *)
Definition summarise (value : list string) (sentiment_scores : list float)
  : result GroupSummary :=
  avg_sentiment <- py_truediv (py_sum sentiment_scores) (List.length sentiment_scores) ;;
  max_sentiment_score <- py_max sentiment_scores ;;
  max_index <- py_index sentiment_scores max_sentiment_score ;;
  max_sentiment_comment <- py_getitem value max_index ;;
  min_sentiment_score <- py_min sentiment_scores ;;
  min_index <- py_index sentiment_scores min_sentiment_score ;;
  min_sentiment_comment <- py_getitem value min_index ;;
  Ok {| avg_sentiment := avg_sentiment;
        max_sentiment_comment := max_sentiment_comment;
        max_sentiment := max_sentiment_score;
        min_sentiment_comment := min_sentiment_comment;
        min_sentiment := min_sentiment_score |}.

(** The loop [for key, value in comments.items()]; the two branches differ
    in the scorer they call and in nothing else. *)
Fixpoint for_items (scorer : list string -> list float)
    (items : list (string * list string)) (results : dict GroupSummary)
  : result (dict GroupSummary) :=
  match items with
  | [] => Ok results
  | (key, value) :: items' =>
      match value with
      | [] => for_items scorer items' results
      | _ :: _ =>
          summary <- summarise value (scorer value) ;;
          for_items scorer items' (dict_set results key summary)
      end
  end.

Definition comments_sentiment_analysis
    (comments : dict (list string)) (method : string)
  : result (dict GroupSummary) :=
  results <-
    (if String.eqb method "vader" then
       for_items vader_sentiment_analysis comments []
     else if String.eqb method "ml" then
       for_items huggingface_sentiment_analysis comments []
     else Ok []) ;;
  Ok (dict_of_items (sorted_by_key results)).

End Analysis.

Arguments vader_sentiment_analysis analyzer comments : simpl never.
Arguments huggingface_sentiment_analysis sentiment_pipeline comments : simpl never.

(** ** Stand-ins for the two libraries

    A three-word lexicon with the compound scores NLTK's VADER gives these
    words, and a pipeline whose tokens are the words of the text. *)

Module Demo.

(** 0.4404, 0.6249 and -0.4767 *)
Definition good_score : float := S754_finite false 7933541103575866 (-54).
Definition great_score : float := S754_finite false 5628598814287646 (-53).
Definition terrible_score : float := S754_finite true 8587463769470062 (-54).

Definition lexicon (comment : string) : polarity :=
  if String.eqb comment "good" then
    {| neg := Float.zero; neu := Float.zero; pos := Float.one;
       compound := good_score |}
  else if String.eqb comment "great" then
    {| neg := Float.zero; neu := Float.zero; pos := Float.one;
       compound := great_score |}
  else if String.eqb comment "terrible" then
    {| neg := Float.one; neu := Float.zero; pos := Float.zero;
       compound := terrible_score |}
  else
    {| neg := Float.zero; neu := Float.one; pos := Float.zero;
       compound := Float.zero |}.

Definition analyzer : SentimentIntensityAnalyzer :=
  {| polarity_scores := lexicon |}.

Fixpoint split_words (text word : string) : list string :=
  match text with
  | EmptyString => if String.eqb word EmptyString then [] else [word]
  | String c text' =>
      if Ascii.eqb c " " then
        if String.eqb word EmptyString then split_words text' EmptyString
        else word :: split_words text' EmptyString
      else split_words text' (word ++ String c EmptyString)
  end.

(** Confidences 0.9998000264167786 and 0.9994999766349792 (single-precision
    numbers, as the classifier yields them). *)
Definition positive_confidence : float := S754_finite false 9005398052831232 (-53).
Definition negative_confidence : float := S754_finite false 9002695444660224 (-53).

Definition classifier (text : string) : classification :=
  if String.eqb text "bad" || String.eqb text "terrible" then
    {| label := "NEGATIVE"; score := negative_confidence |}
  else
    {| label := "POSITIVE"; score := positive_confidence |}.

Definition sentiment_pipeline : Pipeline :=
  {| tokenize := fun text => split_words text EmptyString;
     convert_tokens_to_string := String.concat " ";
     classify := classifier |}.

(** A comment of 510 words, hence of 510 tokens. *)
Definition oversized : string := String.concat " " (repeat "spam" 510).

Definition analyse : dict (list string) -> string -> result (dict GroupSummary) :=
  comments_sentiment_analysis analyzer sentiment_pipeline.

End Demo.

(** Some mappings to try the module on. *)

Module Sample.

Definition months : dict (list string) :=
  [("2023-03", ["good"]); ("2023-02", []); ("2023-01", ["great"; "terrible"])].

Definition months_reordered : dict (list string) :=
  [("2023-02", []); ("2023-03", ["good"]); ("2023-01", ["great"; "terrible"])].

Definition with_oversized : dict (list string) :=
  [("2023-01", [Demo.oversized; "bad"; "good"])].

Definition neutral : dict (list string) :=
  [("2023-01", ["meh"; "so-so"])].

End Sample.

(** ** Vocabulary for the statements *)

(** The test of the loop of [huggingface_sentiment_analysis]: fewer than 510
    tokens. *)
Definition fits (sentiment_pipeline : Pipeline) (comment : string) : bool :=
  Nat.ltb (List.length (tokenize sentiment_pipeline comment)) 510.

(** What the pipeline says of a comment that passes the test. *)
Definition classification_of (sentiment_pipeline : Pipeline) (comment : string)
  : classification :=
  classify sentiment_pipeline
    (convert_tokens_to_string sentiment_pipeline
       (firstn 510 (tokenize sentiment_pipeline comment))).

(** The scorer a method selects. *)
Definition scorer_of (analyzer : SentimentIntensityAnalyzer)
    (sentiment_pipeline : Pipeline) (method : string)
  : list string -> list float :=
  if String.eqb method "vader" then vader_sentiment_analysis analyzer
  else huggingface_sentiment_analysis sentiment_pipeline.

(** [i] is the first position of [l] whose item passes the test of
    [list.index] against [x]. *)
Definition first_match (l : list float) (x : float) (i : nat) : Prop :=
  (exists item, nth_error l i = Some item /\ py_eq item x = true) /\
  (forall j item, j < i -> nth_error l j = Some item -> py_eq item x = false).


(** The test of the loops of [comments_sentiment_analysis], on an item: the
    group has a comment. *)
Definition has_comments (item : string * list string) : bool :=
  match snd item with
  | [] => false
  | _ :: _ => true
  end.

(** The method selects a branch. *)
Definition supported (method : string) : bool :=
  String.eqb method "vader" || String.eqb method "ml".

(** The mapping without the comments [huggingface_sentiment_analysis] skips. *)
Definition drop_oversized (sentiment_pipeline : Pipeline)
    (comments : dict (list string)) : dict (list string) :=
  map (fun item => (fst item, filter (fits sentiment_pipeline) (snd item))) comments.

(** Two entries with the same key and the same three numbers. *)
Definition same_numbers (entry entry' : string * GroupSummary) : Prop :=
  fst entry = fst entry' /\
  avg_sentiment (snd entry) = avg_sentiment (snd entry') /\
  max_sentiment (snd entry) = max_sentiment (snd entry') /\
  min_sentiment (snd entry) = min_sentiment (snd entry').

(** The order the result is sorted in, on the items. *)
Definition key_lt {V : Type} (x y : string * V) : Prop :=
  String.ltb (fst x) (fst y) = true.

(** ** Tactics for the comparisons of floats *)

(** Unfolds a comparison of floats and splits on the comparisons of exponents
    and mantissas it is made of. *)
Ltac float_order :=
  unfold Float.leb, Float.ltb, Float.gtb, Float.eqb, SFleb, SFltb, SFeqb, SFcompare;
  repeat match goal with
    | |- context [Z.compare ?a ?b] => destruct (Z.compare_spec a b)
    | |- context [Pos.compare_cont Eq ?a ?b] =>
        change (Pos.compare_cont Eq a b) with (Pos.compare a b);
        destruct (Pos.compare_spec a b)
    end;
  simpl; intros; try reflexivity; try discriminate; try lia.

(** Splits a float into its four kinds and its two signs. *)
Ltac float_cases x :=
  let s := fresh "s" in
  destruct x as [s|s| |s ? ?]; try destruct s;
  try reflexivity; try discriminate.

(** * Properties *)

(** ** The scorers as a map and a filter *)

Lemma fold_left_append_map {A B : Type} (f : A -> B) (l : list A) (acc : list B) :
  fold_left (fun acc a => acc ++ [f a]) l acc = acc ++ map f l.
Proof.
  revert acc; induction l as [|a l IH]; intros acc; simpl.
  - now rewrite app_nil_r.
  - rewrite IH, <- app_assoc. reflexivity.
Qed.

Lemma vader_sentiment_analysis_map analyzer comments :
  vader_sentiment_analysis analyzer comments =
  map (fun comment => compound (polarity_scores analyzer comment)) comments.
Proof.
  unfold vader_sentiment_analysis.
  now rewrite (fold_left_append_map (fun c => compound (polarity_scores analyzer c))).
Qed.

Lemma fold_left_classify_comment P comments acc :
  fold_left (classify_comment P) comments acc =
  acc ++ map (classification_of P) (filter (fits P) comments).
Proof.
  revert acc; induction comments as [|c comments IH]; intros acc; simpl.
  - now rewrite app_nil_r.
  - rewrite IH. unfold classify_comment at 1. fold (fits P c).
    destruct (fits P c); simpl.
    + rewrite <- app_assoc. reflexivity.
    + reflexivity.
Qed.

Lemma huggingface_sentiment_analysis_filter P comments :
  huggingface_sentiment_analysis P comments =
  map (fun comment => signed_score (classification_of P comment))
      (filter (fits P) comments).
Proof.
  unfold huggingface_sentiment_analysis.
  rewrite fold_left_classify_comment. simpl. apply map_map.
Qed.

Lemma filter_length_eq {A : Type} (f : A -> bool) (l : list A) :
  List.length (filter f l) = List.length l <-> Forall (fun a => f a = true) l.
Proof.
  induction l as [|a l IH]; simpl.
  - split; auto.
  - pose proof (filter_length_le f l) as Hle.
    destruct (f a) eqn:E; simpl; split; intros H.
    + constructor; [assumption | apply IH; lia].
    + inversion H; subst. f_equal. now apply IH.
    + lia.
    + inversion H; subst. congruence.
Qed.

Lemma scorer_of_length analyzer P method value :
  List.length (scorer_of analyzer P method value) <= List.length value.
Proof.
  unfold scorer_of. destruct (String.eqb method "vader").
  - rewrite vader_sentiment_analysis_map, length_map. lia.
  - rewrite huggingface_sentiment_analysis_filter, length_map.
    apply filter_length_le.
Qed.

(** ** The builtins *)

Lemma float_same_refl x : Float.same x x = true.
Proof.
  destruct x as [s|s| |s m e]; simpl; try reflexivity.
  - now destruct s.
  - now destruct s.
  - rewrite Pos.eqb_refl, Z.eqb_refl. now destruct s.
Qed.

Lemma py_eq_refl x : py_eq x x = true.
Proof. unfold py_eq. now rewrite float_same_refl. Qed.

Lemma fold_left_choice_In {A : Type} (better : A -> A -> bool) (xs : list A) (x : A) :
  In (fold_left (fun best item => if better item best then item else best) xs x)
     (x :: xs).
Proof.
  revert x; induction xs as [|y xs IH]; intros x; simpl.
  - now left.
  - destruct (IH (if better y x then y else x)) as [H|H].
    + destruct (better y x); rewrite <- H; auto.
    + auto.
Qed.

Lemma py_max_In l m : py_max l = Ok m -> In m l.
Proof.
  destruct l as [|x xs]; simpl; intros H; inversion H; subst.
  apply (fold_left_choice_In Float.gtb).
Qed.

Lemma py_min_In l m : py_min l = Ok m -> In m l.
Proof.
  destruct l as [|x xs]; simpl; intros H; inversion H; subst.
  apply (fold_left_choice_In Float.ltb).
Qed.

Lemma py_max_ok l : l <> [] -> exists m, py_max l = Ok m.
Proof. destruct l; [congruence | simpl; eauto]. Qed.

Lemma py_min_ok l : l <> [] -> exists m, py_min l = Ok m.
Proof. destruct l; [congruence | simpl; eauto]. Qed.

Lemma py_index_ok l x : In x l -> exists i, py_index l x = Ok i.
Proof.
  induction l as [|item l IH]; simpl; intros H; [contradiction|].
  destruct (py_eq item x) eqn:E; [eauto|].
  destruct H as [H|H].
  - subst. rewrite py_eq_refl in E. discriminate.
  - destruct (IH H) as [i Hi]. rewrite Hi. simpl. eauto.
Qed.

Lemma py_index_first_match l x i : py_index l x = Ok i -> first_match l x i.
Proof.
  revert i; induction l as [|item l IH]; simpl; intros i H; [discriminate|].
  destruct (py_eq item x) eqn:E.
  - inversion H; subst. split.
    + exists item. auto.
    + intros j it Hj. lia.
  - destruct (py_index l x) as [i'|e] eqn:Hi; simpl in H; inversion H; subst.
    destruct (IH i' eq_refl) as [Hat Hbefore]. split.
    + exact Hat.
    + intros [|j] it Hj Hn; simpl in Hn.
      * inversion Hn; subst. exact E.
      * apply (Hbefore j); [lia | exact Hn].
Qed.

Lemma first_match_lt l x i : first_match l x i -> i < List.length l.
Proof.
  intros [[item [H _]] _]. apply nth_error_Some. congruence.
Qed.

Lemma first_match_unique l x i j : first_match l x i -> first_match l x j -> i = j.
Proof.
  intros [[a [Ha Ea]] Hi] [[b [Hb Eb]] Hj].
  destruct (Nat.lt_trichotomy i j) as [H|[H|H]]; [|assumption|].
  - rewrite (Hj i a H Ha) in Ea. discriminate.
  - rewrite (Hi j b H Hb) in Eb. discriminate.
Qed.

Lemma py_getitem_ok {A : Type} (l : list A) i :
  i < List.length l -> exists a, py_getitem l i = Ok a.
Proof.
  intros H. unfold py_getitem.
  destruct (nth_error l i) eqn:E; [eauto|].
  apply nth_error_None in E. lia.
Qed.

(** ** One group *)

Lemma summarise_ok value sentiment_scores :
  sentiment_scores <> [] ->
  List.length sentiment_scores <= List.length value ->
  exists summary, summarise value sentiment_scores = Ok summary.
Proof.
  intros Hne Hlen. unfold summarise.
  assert (Havg : exists avg,
             py_truediv (py_sum sentiment_scores) (List.length sentiment_scores) = Ok avg).
  { destruct sentiment_scores; [congruence | simpl; eauto]. }
  destruct Havg as [avg Havg]. rewrite Havg. cbn [bind].
  destruct (py_max_ok sentiment_scores Hne) as [mx Hmx]. rewrite Hmx. cbn [bind].
  destruct (py_index_ok _ _ (py_max_In _ _ Hmx)) as [i Hi]. rewrite Hi. cbn [bind].
  pose proof (first_match_lt _ _ _ (py_index_first_match _ _ _ Hi)) as Hilt.
  destruct (py_getitem_ok value i ltac:(lia)) as [ci Hci]. rewrite Hci. cbn [bind].
  destruct (py_min_ok sentiment_scores Hne) as [mn Hmn]. rewrite Hmn. cbn [bind].
  destruct (py_index_ok _ _ (py_min_In _ _ Hmn)) as [j Hj]. rewrite Hj. cbn [bind].
  pose proof (first_match_lt _ _ _ (py_index_first_match _ _ _ Hj)) as Hjlt.
  destruct (py_getitem_ok value j ltac:(lia)) as [cj Hcj]. rewrite Hcj. cbn [bind].
  eauto.
Qed.

Lemma bind_Ok {A B : Type} (c : result A) (k : A -> result B) b :
  bind c k = Ok b -> exists a, c = Ok a /\ k a = Ok b.
Proof. destruct c; simpl; intros H; [eauto | discriminate]. Qed.

Lemma py_getitem_Ok {A : Type} (l : list A) i a :
  py_getitem l i = Ok a -> nth_error l i = Some a.
Proof.
  unfold py_getitem. destruct (nth_error l i); intros H; inversion H; reflexivity.
Qed.

(** What a summary records, read off the code. *)
Lemma summarise_inv value sentiment_scores summary :
  summarise value sentiment_scores = Ok summary ->
  sentiment_scores <> [] /\
  avg_sentiment summary =
    Float.div (py_sum sentiment_scores) (Float.of_nat (List.length sentiment_scores)) /\
  py_max sentiment_scores = Ok (max_sentiment summary) /\
  py_min sentiment_scores = Ok (min_sentiment summary) /\
  (exists i, first_match sentiment_scores (max_sentiment summary) i /\
             nth_error value i = Some (max_sentiment_comment summary)) /\
  (exists j, first_match sentiment_scores (min_sentiment summary) j /\
             nth_error value j = Some (min_sentiment_comment summary)).
Proof.
  unfold summarise. intros H.
  apply bind_Ok in H as [avg [Havg H]].
  apply bind_Ok in H as [mx [Hmx H]].
  apply bind_Ok in H as [i [Hi H]].
  apply bind_Ok in H as [ci [Hci H]].
  apply bind_Ok in H as [mn [Hmn H]].
  apply bind_Ok in H as [j [Hj H]].
  apply bind_Ok in H as [cj [Hcj H]].
  inversion H; subst; clear H. simpl.
  split; [intros ->; discriminate|].
  split.
  { unfold py_truediv in Havg.
    destruct (List.length sentiment_scores); inversion Havg; reflexivity. }
  repeat split; try assumption.
  - exists i. split; [now apply py_index_first_match | now apply py_getitem_Ok].
  - exists j. split; [now apply py_index_first_match | now apply py_getitem_Ok].
Qed.

(** ** Dictionaries *)

Lemma dict_get_set {V : Type} (d : dict V) k v k' :
  dict_get (dict_set d k v) k' =
  if String.eqb k k' then Some v else dict_get d k'.
Proof.
  induction d as [|[k0 v0] d IH]; simpl.
  - reflexivity.
  - destruct (String.eqb k0 k) eqn:E0; simpl.
    + apply String.eqb_eq in E0; subst k0.
      destruct (String.eqb k k'); reflexivity.
    + destruct (String.eqb k0 k') eqn:E1.
      * apply String.eqb_eq in E1; subst k0. now rewrite String.eqb_sym, E0.
      * exact IH.
Qed.

Lemma dict_get_In {V : Type} (d : dict V) k v :
  dict_get d k = Some v -> In (k, v) d.
Proof.
  induction d as [|[k0 v0] d IH]; simpl; [discriminate|].
  destruct (String.eqb k0 k) eqn:E.
  - apply String.eqb_eq in E. intros H; inversion H; subst. now left.
  - auto.
Qed.

Lemma In_dict_get {V : Type} (d : dict V) k v :
  dict_wf d -> In (k, v) d -> dict_get d k = Some v.
Proof.
  unfold dict_wf, dict_keys.
  induction d as [|[k0 v0] d IH]; simpl; intros Hwf H; [contradiction|].
  inversion Hwf as [|? ? Hnot Hwf']; subst.
  destruct H as [H|H].
  - inversion H; subst. now rewrite String.eqb_refl.
  - destruct (String.eqb k0 k) eqn:E.
    + apply String.eqb_eq in E; subst k0. exfalso. apply Hnot.
      change k with (fst (k, v)). now apply in_map.
    + auto.
Qed.

Lemma dict_keys_set_old {V : Type} (d : dict V) k v :
  In k (dict_keys d) -> dict_keys (dict_set d k v) = dict_keys d.
Proof.
  unfold dict_keys.
  induction d as [|[k0 v0] d IH]; simpl; intros H; [contradiction|].
  destruct (String.eqb k0 k) eqn:E; simpl.
  - reflexivity.
  - apply String.eqb_neq in E. f_equal. apply IH. tauto.
Qed.

Lemma dict_set_fresh {V : Type} (d : dict V) k v :
  ~ In k (dict_keys d) -> dict_set d k v = d ++ [(k, v)].
Proof.
  unfold dict_keys.
  induction d as [|[k0 v0] d IH]; simpl; intros H; [reflexivity|].
  destruct (String.eqb k0 k) eqn:E.
  - apply String.eqb_eq in E. tauto.
  - f_equal. apply IH. tauto.
Qed.

Lemma dict_set_wf {V : Type} (d : dict V) k v :
  dict_wf d -> dict_wf (dict_set d k v).
Proof.
  unfold dict_wf. intros H.
  destruct (in_dec string_dec k (dict_keys d)) as [Hin|Hnin].
  - now rewrite dict_keys_set_old.
  - rewrite (dict_set_fresh _ _ _ Hnin). unfold dict_keys. rewrite map_app. simpl.
    apply NoDup_app; [assumption | repeat constructor; simpl; tauto |].
    intros x Hx [Hk|[]]. subst. contradiction.
Qed.

Lemma fold_left_dict_set {V : Type} (items acc : list (string * V)) :
  NoDup (map fst (acc ++ items)) ->
  fold_left (fun d kv => dict_set d (fst kv) (snd kv)) items acc = acc ++ items.
Proof.
  revert acc; induction items as [|[k v] items IH]; intros acc H; simpl.
  - now rewrite app_nil_r.
  - assert (Hfresh : ~ In k (dict_keys acc)).
    { unfold dict_keys. rewrite map_app in H. simpl in H.
      apply NoDup_remove_2 in H. intros Hin. apply H. apply in_or_app. now left. }
    rewrite (dict_set_fresh _ _ _ Hfresh).
    rewrite IH; rewrite <- app_assoc; simpl; [reflexivity | assumption].
Qed.

(** Building a dictionary from items whose keys are distinct keeps the items
    and their order. *)
Lemma dict_of_items_wf {V : Type} (items : list (string * V)) :
  NoDup (map fst items) -> dict_of_items items = items.
Proof. intros H. unfold dict_of_items. now rewrite fold_left_dict_set. Qed.

(** ** The order of strings *)

Lemma ascii_compare_refl a : Ascii.compare a a = Eq.
Proof. unfold Ascii.compare. apply N.compare_refl. Qed.

Lemma ascii_compare_trans a b c :
  Ascii.compare a b = Lt -> Ascii.compare b c = Lt -> Ascii.compare a c = Lt.
Proof.
  unfold Ascii.compare. rewrite !N.compare_lt_iff. apply N.lt_trans.
Qed.

Lemma string_compare_trans s1 s2 s3 :
  String.compare s1 s2 = Lt -> String.compare s2 s3 = Lt -> String.compare s1 s3 = Lt.
Proof.
  revert s2 s3; induction s1 as [|a s1 IH]; intros [|b s2] [|c s3]; simpl;
    try discriminate; try reflexivity.
  destruct (Ascii.compare a b) eqn:E1; destruct (Ascii.compare b c) eqn:E2;
    try discriminate; intros H1 H2.
  - apply Ascii.compare_eq_iff in E1, E2. subst.
    rewrite ascii_compare_refl. eauto.
  - apply Ascii.compare_eq_iff in E1. subst. now rewrite E2.
  - apply Ascii.compare_eq_iff in E2. subst. now rewrite E1.
  - now rewrite (ascii_compare_trans _ _ _ E1 E2).
Qed.

Lemma string_ltb_trans s1 s2 s3 :
  String.ltb s1 s2 = true -> String.ltb s2 s3 = true -> String.ltb s1 s3 = true.
Proof.
  unfold String.ltb. intros H1 H2.
  destruct (String.compare s1 s2) eqn:E1; try discriminate.
  destruct (String.compare s2 s3) eqn:E2; try discriminate.
  now rewrite (string_compare_trans _ _ _ E1 E2).
Qed.

(** Of two different strings, the one that is not above the other is below it. *)
Lemma string_ltb_total s1 s2 :
  s1 <> s2 -> String.ltb s2 s1 = false -> String.ltb s1 s2 = true.
Proof.
  unfold String.ltb. rewrite (String.compare_antisym s2 s1).
  destruct (String.compare s1 s2) eqn:E; simpl; intros Hne H; try reflexivity.
  - apply String.compare_eq_iff in E. contradiction.
  - discriminate.
Qed.

(** ** Sorting by key *)

Lemma insert_by_key_perm {V : Type} (x : string * V) l :
  Permutation (x :: l) (insert_by_key x l).
Proof.
  induction l as [|y l IH]; simpl.
  - apply Permutation_refl.
  - destruct (String.ltb (fst y) (fst x)).
    + eapply perm_trans; [apply perm_swap | apply perm_skip, IH].
    + apply Permutation_refl.
Qed.

Lemma sorted_by_key_perm {V : Type} (items : list (string * V)) :
  Permutation items (sorted_by_key items).
Proof.
  induction items as [|x items IH]; simpl.
  - apply perm_nil.
  - eapply perm_trans; [apply perm_skip, IH | apply insert_by_key_perm].
Qed.

Lemma insert_by_key_HdRel {V : Type} (a x : string * V) l :
  HdRel key_lt a l -> key_lt a x -> HdRel key_lt a (insert_by_key x l).
Proof.
  destruct l as [|y l]; simpl; intros Hl Hx.
  - now constructor.
  - destruct (String.ltb (fst y) (fst x)); constructor.
    + now inversion Hl.
    + assumption.
Qed.

Lemma insert_by_key_sorted {V : Type} (x : string * V) l :
  Sorted key_lt l -> ~ In (fst x) (map fst l) -> Sorted key_lt (insert_by_key x l).
Proof.
  induction l as [|y l IH]; simpl; intros Hs Hnin.
  - repeat constructor.
  - inversion Hs as [|? ? Hs' Hhd]; subst.
    destruct (String.ltb (fst y) (fst x)) eqn:E.
    + constructor.
      * apply IH; [assumption | tauto].
      * apply insert_by_key_HdRel; assumption.
    + constructor; [assumption|]. constructor.
      apply string_ltb_total; [|assumption]. intros Heq. apply Hnin. now left.
Qed.

Lemma sorted_by_key_sorted {V : Type} (items : list (string * V)) :
  NoDup (map fst items) -> Sorted key_lt (sorted_by_key items).
Proof.
  induction items as [|x items IH]; simpl; intros Hnd.
  - constructor.
  - inversion Hnd as [|? ? Hnin Hnd']; subst.
    apply insert_by_key_sorted; [auto|].
    intros Hin. apply Hnin.
    eapply Permutation_in; [|exact Hin].
    apply Permutation_map, Permutation_sym, sorted_by_key_perm.
Qed.

Lemma key_lt_strongly_sorted {V : Type} (l : list (string * V)) :
  Sorted key_lt l ->
  StronglySorted (fun k1 k2 => String.ltb k1 k2 = true) (dict_keys l).
Proof.
  intros Hs. apply Sorted_StronglySorted in Hs.
  - induction Hs as [|x l Hs IH Hall]; simpl; constructor.
    + exact IH.
    + unfold dict_keys. rewrite Forall_map. exact Hall.
  - intros x y z. unfold key_lt. apply string_ltb_trans.
Qed.

(** ** The loop over the groups *)

Section Loop.

Variable scorer : list string -> list float.

Lemma for_items_wf items results r :
  for_items scorer items results = Ok r -> dict_wf results -> dict_wf r.
Proof.
  revert results; induction items as [|[key value] items IH]; simpl; intros results H Hwf.
  - inversion H; subst. assumption.
  - destruct value as [|c value]; [eauto|].
    apply bind_Ok in H as [summary [_ H]].
    eapply IH; [exact H | now apply dict_set_wf].
Qed.

(** Every entry of the result was there before the loop or summarises a
    group of the input that has a comment. *)
Lemma for_items_get items results r key summary :
  for_items scorer items results = Ok r ->
  dict_get r key = Some summary ->
  dict_get results key = Some summary \/
  exists value, In (key, value) items /\ value <> [] /\
                summarise value (scorer value) = Ok summary.
Proof.
  revert results; induction items as [|[k value] items IH]; simpl; intros results H Hget.
  - inversion H; subst. now left.
  - destruct value as [|c value].
    + destruct (IH _ H Hget) as [Hl|[v [Hin Hv]]]; [now left|].
      right. exists v. split; [now right | assumption].
    + apply bind_Ok in H as [s [Hs H]].
      destruct (IH _ H Hget) as [Hl|[v [Hin Hv]]].
      * rewrite dict_get_set in Hl. destruct (String.eqb k key) eqn:E.
        -- apply String.eqb_eq in E. inversion Hl; subst.
           right. exists (c :: value). repeat split; [now left | discriminate | assumption].
        -- now left.
      * right. exists v. split; [now right | assumption].
Qed.

(** The loop raises what the summary of one of its groups raises. *)
Lemma for_items_Raise items results e :
  for_items scorer items results = Raise e ->
  exists key value, In (key, value) items /\ value <> [] /\
                    summarise value (scorer value) = Raise e.
Proof.
  revert results; induction items as [|[k value] items IH]; simpl; intros results H.
  - discriminate.
  - destruct value as [|c value].
    + destruct (IH _ H) as [key [v [Hin Hv]]]. exists key, v. split; [now right | assumption].
    + destruct (summarise (c :: value) (scorer (c :: value))) as [s|e'] eqn:Hs; simpl in H.
      * destruct (IH _ H) as [key [v [Hin Hv]]]. exists key, v. split; [now right | assumption].
      * inversion H; subst. exists k, (c :: value).
        repeat split; [now left | discriminate | assumption].
Qed.

(** The loop returns only when every group that has a comment is summarised. *)
Lemma for_items_Ok items results r key value :
  for_items scorer items results = Ok r ->
  In (key, value) items -> value <> [] ->
  exists summary, summarise value (scorer value) = Ok summary.
Proof.
  revert results; induction items as [|[k v] items IH]; simpl; intros results H Hin Hne.
  - contradiction.
  - destruct v as [|c v].
    + destruct Hin as [Hin|Hin]; [inversion Hin; subst; congruence | eauto].
    + apply bind_Ok in H as [s [Hs H]].
      destruct Hin as [Hin|Hin]; [inversion Hin; subst; eauto | eauto].
Qed.

End Loop.

(** ** The aggregator *)

Lemma comments_sentiment_analysis_Ok analyzer P comments method r :
  comments_sentiment_analysis analyzer P comments method = Ok r ->
  exists results,
    (if String.eqb method "vader" then
       for_items (vader_sentiment_analysis analyzer) comments []
     else if String.eqb method "ml" then
       for_items (huggingface_sentiment_analysis P) comments []
     else Ok []) = Ok results /\
    dict_wf results /\
    r = sorted_by_key results.
Proof.
  unfold comments_sentiment_analysis. intros H.
  apply bind_Ok in H as [results [Hloop H]]. inversion H; subst; clear H.
  assert (Hwf : dict_wf results).
  { destruct (String.eqb method "vader").
    - eapply for_items_wf; [exact Hloop | constructor].
    - destruct (String.eqb method "ml").
      + eapply for_items_wf; [exact Hloop | constructor].
      + inversion Hloop. constructor. }
  exists results. repeat split; try assumption.
  apply dict_of_items_wf.
  eapply Permutation_NoDup; [|exact Hwf].
  apply Permutation_map, sorted_by_key_perm.
Qed.

(** Every entry of the result summarises a group of the input that has a
    comment, scored by the scorer of the method. *)
Lemma comments_sentiment_analysis_entry analyzer P comments method r key summary :
  comments_sentiment_analysis analyzer P comments method = Ok r ->
  dict_get r key = Some summary ->
  exists value,
    In (key, value) comments /\ value <> [] /\
    summarise value (scorer_of analyzer P method value) = Ok summary.
Proof.
  intros H Hget.
  apply comments_sentiment_analysis_Ok in H as [results [Hloop [Hwf ->]]].
  assert (Hget0 : dict_get results key = Some summary).
  { apply In_dict_get; [assumption|].
    eapply Permutation_in; [apply Permutation_sym, sorted_by_key_perm|].
    now apply dict_get_In. }
  unfold scorer_of.
  destruct (String.eqb method "vader").
  - destruct (for_items_get _ _ _ _ _ _ Hloop Hget0) as [Hl|Hr]; [discriminate | exact Hr].
  - destruct (String.eqb method "ml").
    + destruct (for_items_get _ _ _ _ _ _ Hloop Hget0) as [Hl|Hr]; [discriminate | exact Hr].
    + inversion Hloop; subst. discriminate.
Qed.

Lemma comments_sentiment_analysis_Raise analyzer P comments method e :
  comments_sentiment_analysis analyzer P comments method = Raise e ->
  exists key value,
    In (key, value) comments /\ value <> [] /\
    (String.eqb method "vader" = true \/ String.eqb method "ml" = true) /\
    summarise value (scorer_of analyzer P method value) = Raise e.
Proof.
  unfold comments_sentiment_analysis, scorer_of. intros H.
  destruct (String.eqb method "vader") eqn:Ev.
  - destruct (for_items _ comments []) as [r|e'] eqn:Hloop; simpl in H; inversion H; subst.
    destruct (for_items_Raise _ _ _ _ Hloop) as [key [value [Hin [Hne Hs]]]].
    exists key, value. auto.
  - destruct (String.eqb method "ml") eqn:Em; [|discriminate].
    destruct (for_items _ comments []) as [r|e'] eqn:Hloop; simpl in H; inversion H; subst.
    destruct (for_items_Raise _ _ _ _ Hloop) as [key [value [Hin [Hne Hs]]]].
    exists key, value. auto.
Qed.

(** A summary raises only for want of scores. *)
Lemma summarise_Raise value sentiment_scores e :
  List.length sentiment_scores <= List.length value ->
  summarise value sentiment_scores = Raise e ->
  e = ZeroDivisionError /\ sentiment_scores = [].
Proof.
  intros Hlen H. destruct sentiment_scores as [|s rest].
  - simpl in H. inversion H. auto.
  - destruct (summarise_ok value (s :: rest)) as [summary Hs];
      [discriminate | assumption | congruence].
Qed.

Lemma filter_nil_Forall {A : Type} (f : A -> bool) (l : list A) :
  filter f l = [] <-> Forall (fun a => f a = false) l.
Proof.
  induction l as [|a l IH]; simpl.
  - split; auto.
  - destruct (f a) eqn:E; split; intros H.
    + discriminate.
    + inversion H; subst. congruence.
    + constructor; [assumption | now apply IH].
    + inversion H; subst. now apply IH.
Qed.

Lemma huggingface_sentiment_analysis_nil P comments :
  huggingface_sentiment_analysis P comments = [] <->
  Forall (fun comment => fits P comment = false) comments.
Proof.
  rewrite huggingface_sentiment_analysis_filter, <- filter_nil_Forall.
  destruct (filter (fits P) comments); simpl; split; intros H; congruence.
Qed.

(** ** The order of floats *)

Lemma float_leb_trans x y z :
  Float.leb x y = true -> Float.leb y z = true -> Float.leb x z = true.
Proof.
  destruct x as [sx|sx| |sx mx ex], y as [sy|sy| |sy my ey], z as [sz|sz| |sz mz ez];
    try destruct sx; try destruct sy; try destruct sz;
    try reflexivity; try discriminate; float_order.
Qed.

Lemma float_leb_refl x : Float.is_nan x = false -> Float.leb x x = true.
Proof. float_cases x; float_order. Qed.

Lemma float_gtb_false x y :
  Float.is_nan x = false -> Float.is_nan y = false ->
  Float.gtb y x = false -> Float.leb y x = true.
Proof. float_cases x; float_cases y; float_order. Qed.

Lemma float_gtb_true x y : Float.gtb y x = true -> Float.leb x y = true.
Proof. float_cases x; float_cases y; float_order. Qed.

Lemma float_ltb_false x y :
  Float.is_nan x = false -> Float.is_nan y = false ->
  Float.ltb y x = false -> Float.leb x y = true.
Proof. float_cases x; float_cases y; float_order. Qed.

Lemma float_ltb_true x y : Float.ltb y x = true -> Float.leb y x = true.
Proof. float_cases x; float_cases y; float_order. Qed.

Lemma in_unit_not_nan x : Float.in_unit x = true -> Float.is_nan x = false.
Proof.
  destruct x; try reflexivity. intros H. vm_compute in H. discriminate.
Qed.

(** The two bounds of the contracts, for any float in place of [1.0]. *)
Lemma between_zero_and_bound M E c :
  Float.leb Float.zero c && Float.leb c (S754_finite false M E) = true ->
  Float.leb (S754_finite true M E) c && Float.leb c (S754_finite false M E) = true.
Proof. unfold Float.zero. float_cases c; float_order. Qed.

Lemma neg_between_zero_and_bound M E c :
  Float.leb Float.zero c && Float.leb c (S754_finite false M E) = true ->
  Float.leb (S754_finite true M E) (Float.neg c)
  && Float.leb (Float.neg c) (S754_finite false M E) = true.
Proof. unfold Float.zero, Float.neg. float_cases c; simpl SFopp; float_order. Qed.

Lemma in_01_in_unit c : Float.in_01 c = true -> Float.in_unit c = true.
Proof. apply between_zero_and_bound. Qed.

Lemma in_01_neg_in_unit c : Float.in_01 c = true -> Float.in_unit (Float.neg c) = true.
Proof. apply neg_between_zero_and_bound. Qed.

(** [max] returns an upper bound of the list and [min] a lower bound, when no
    item is a NaN. *)
Lemma fold_left_max_upper xs x :
  Forall (fun s => Float.is_nan s = false) (x :: xs) ->
  Forall (fun s =>
            Float.leb s
              (fold_left (fun best item => if Float.gtb item best then item else best) xs x)
            = true) (x :: xs).
Proof.
  revert x; induction xs as [|y xs IH]; intros x Hnan; simpl.
  - constructor; [|constructor]. apply float_leb_refl. now inversion Hnan.
  - inversion Hnan as [|? ? Hx Hrest]; subst. inversion Hrest as [|? ? Hy Hxs]; subst.
    set (b := if Float.gtb y x then y else x).
    assert (Hb : Float.is_nan b = false) by (unfold b; destruct (Float.gtb y x); assumption).
    specialize (IH b (Forall_cons _ Hb Hxs)).
    inversion IH as [|? ? Hbr Hall]; subst.
    assert (Hxb : Float.leb x b = true).
    { unfold b. destruct (Float.gtb y x) eqn:E;
        [now apply float_gtb_true | now apply float_leb_refl]. }
    assert (Hyb : Float.leb y b = true).
    { unfold b. destruct (Float.gtb y x) eqn:E;
        [now apply float_leb_refl | now apply float_gtb_false]. }
    constructor; [eapply float_leb_trans; eassumption|].
    constructor; [eapply float_leb_trans; eassumption|].
    exact Hall.
Qed.

Lemma fold_left_min_lower xs x :
  Forall (fun s => Float.is_nan s = false) (x :: xs) ->
  Forall (fun s =>
            Float.leb
              (fold_left (fun best item => if Float.ltb item best then item else best) xs x)
              s
            = true) (x :: xs).
Proof.
  revert x; induction xs as [|y xs IH]; intros x Hnan; simpl.
  - constructor; [|constructor]. apply float_leb_refl. now inversion Hnan.
  - inversion Hnan as [|? ? Hx Hrest]; subst. inversion Hrest as [|? ? Hy Hxs]; subst.
    set (b := if Float.ltb y x then y else x).
    assert (Hb : Float.is_nan b = false) by (unfold b; destruct (Float.ltb y x); assumption).
    specialize (IH b (Forall_cons _ Hb Hxs)).
    inversion IH as [|? ? Hbr Hall]; subst.
    assert (Hxb : Float.leb b x = true).
    { unfold b. destruct (Float.ltb y x) eqn:E;
        [now apply float_ltb_true | now apply float_leb_refl]. }
    assert (Hyb : Float.leb b y = true).
    { unfold b. destruct (Float.ltb y x) eqn:E;
        [now apply float_leb_refl | now apply float_ltb_false]. }
    constructor; [eapply float_leb_trans; eassumption|].
    constructor; [eapply float_leb_trans; eassumption|].
    exact Hall.
Qed.

Lemma py_max_upper l m :
  Forall (fun s => Float.is_nan s = false) l -> py_max l = Ok m ->
  Forall (fun s => Float.leb s m = true) l.
Proof.
  destruct l as [|x xs]; simpl; intros Hnan H; inversion H; subst.
  now apply fold_left_max_upper.
Qed.

Lemma py_min_lower l m :
  Forall (fun s => Float.is_nan s = false) l -> py_min l = Ok m ->
  Forall (fun s => Float.leb m s = true) l.
Proof.
  destruct l as [|x xs]; simpl; intros Hnan H; inversion H; subst.
  now apply fold_left_min_lower.
Qed.

Lemma signed_score_in_unit sentiment :
  Float.in_01 (score sentiment) = true ->
  Float.in_unit (signed_score sentiment) = true.
Proof.
  intros H. unfold signed_score.
  destruct (String.eqb (label sentiment) "POSITIVE");
    [now apply in_01_in_unit | now apply in_01_neg_in_unit].
Qed.

(** Under the contracts of the libraries every score is in [-1, 1]. *)
Lemma scorer_of_in_unit analyzer P method value :
  analyzer_bounded analyzer -> pipeline_bounded P ->
  Forall (fun s => Float.in_unit s = true) (scorer_of analyzer P method value).
Proof.
  intros HA HP. unfold scorer_of. destruct (String.eqb method "vader").
  - rewrite vader_sentiment_analysis_map, Forall_map.
    apply Forall_forall. intros c _. apply HA.
  - rewrite huggingface_sentiment_analysis_filter, Forall_map.
    apply Forall_forall. intros c _. apply signed_score_in_unit, HP.
Qed.

(** [max] returns an item that no item is greater than, and [min] an item that
    no item is less than, whatever the items, NaNs included. *)
Lemma float_gtb_irrefl x : Float.gtb x x = false.
Proof. float_cases x; float_order. Qed.

Lemma float_gtb_trans x y z :
  Float.gtb z y = true -> Float.gtb y x = true -> Float.gtb z x = true.
Proof. float_cases x; float_cases y; float_cases z; float_order. Qed.

Lemma float_gtb_asym x y : Float.gtb y x = true -> Float.gtb x y = false.
Proof. float_cases x; float_cases y; float_order. Qed.

Lemma float_gtb_below x y z :
  Float.gtb z x = true -> Float.gtb y x = false -> Float.gtb y z = false.
Proof. float_cases x; float_cases y; float_cases z; float_order. Qed.

Lemma float_ltb_irrefl x : Float.ltb x x = false.
Proof. float_cases x; float_order. Qed.

Lemma float_ltb_trans x y z :
  Float.ltb z y = true -> Float.ltb y x = true -> Float.ltb z x = true.
Proof. float_cases x; float_cases y; float_cases z; float_order. Qed.

Lemma float_ltb_asym x y : Float.ltb y x = true -> Float.ltb x y = false.
Proof. float_cases x; float_cases y; float_order. Qed.

Lemma float_ltb_above x y z :
  Float.ltb z x = true -> Float.ltb y x = false -> Float.ltb y z = false.
Proof. float_cases x; float_cases y; float_cases z; float_order. Qed.

Lemma fold_left_max_none_greater xs x :
  let r := fold_left (fun best item => if Float.gtb item best then item else best) xs x in
  (r = x \/ Float.gtb r x = true) /\
  Forall (fun s => Float.gtb s r = false) (x :: xs).
Proof.
  revert x; induction xs as [|y xs IH]; intros x; simpl.
  - split; [now left|]. constructor; [apply float_gtb_irrefl | constructor].
  - specialize (IH (if Float.gtb y x then y else x)). simpl in IH.
    destruct IH as [Hreach Hall]. inversion Hall as [|? ? Hb Hxs]; subst.
    destruct (Float.gtb y x) eqn:E.
    + assert (Hrx : Float.gtb
                      (fold_left (fun best item => if Float.gtb item best then item else best) xs y)
                      x = true).
      { destruct Hreach as [-> | Hr]; [exact E | exact (float_gtb_trans _ _ _ Hr E)]. }
      split; [now right|].
      constructor; [now apply float_gtb_asym|]. constructor; assumption.
    + split; [exact Hreach|].
      constructor; [exact Hb|]. constructor; [|exact Hxs].
      destruct Hreach as [-> | Hr]; [exact E | exact (float_gtb_below _ _ _ Hr E)].
Qed.

Lemma fold_left_min_none_less xs x :
  let r := fold_left (fun best item => if Float.ltb item best then item else best) xs x in
  (r = x \/ Float.ltb r x = true) /\
  Forall (fun s => Float.ltb s r = false) (x :: xs).
Proof.
  revert x; induction xs as [|y xs IH]; intros x; simpl.
  - split; [now left|]. constructor; [apply float_ltb_irrefl | constructor].
  - specialize (IH (if Float.ltb y x then y else x)). simpl in IH.
    destruct IH as [Hreach Hall]. inversion Hall as [|? ? Hb Hxs]; subst.
    destruct (Float.ltb y x) eqn:E.
    + assert (Hrx : Float.ltb
                      (fold_left (fun best item => if Float.ltb item best then item else best) xs y)
                      x = true).
      { destruct Hreach as [-> | Hr]; [exact E | exact (float_ltb_trans _ _ _ Hr E)]. }
      split; [now right|].
      constructor; [now apply float_ltb_asym|]. constructor; assumption.
    + split; [exact Hreach|].
      constructor; [exact Hb|]. constructor; [|exact Hxs].
      destruct Hreach as [-> | Hr]; [exact E | exact (float_ltb_above _ _ _ Hr E)].
Qed.

Lemma py_max_none_greater l m :
  py_max l = Ok m -> Forall (fun s => Float.gtb s m = false) l.
Proof.
  destruct l as [|x xs]; simpl; intros H; inversion H; subst.
  apply fold_left_max_none_greater.
Qed.

Lemma py_min_none_less l m :
  py_min l = Ok m -> Forall (fun s => Float.ltb s m = false) l.
Proof.
  destruct l as [|x xs]; simpl; intros H; inversion H; subst.
  apply fold_left_min_none_less.
Qed.

(** ** The numbers the floats stand for *)

Local Open Scope Z_scope.









Local Close Scope Z_scope.




(** ** The stand-ins honour the contracts *)

Lemma demo_analyzer_bounded : analyzer_bounded Demo.analyzer.
Proof.
  intros comment. simpl. unfold Demo.lexicon.
  destruct (String.eqb comment "good"); [reflexivity|].
  destruct (String.eqb comment "great"); [reflexivity|].
  destruct (String.eqb comment "terrible"); reflexivity.
Qed.

Lemma demo_pipeline_bounded : pipeline_bounded Demo.sentiment_pipeline.
Proof.
  intros text. simpl. unfold Demo.classifier.
  destruct (String.eqb text "bad" || String.eqb text "terrible"); reflexivity.
Qed.



(** ** The branch of the lexicon *)

(** X1: under "vader" the scores are one per comment, and the comment reported
    with an extreme has that extreme for its score. *)
Lemma vader_reported_comments_have_reported_scores
    analyzer P comments r key summary :
  comments_sentiment_analysis analyzer P comments "vader" = Ok r ->
  dict_get r key = Some summary ->
  py_eq (compound (polarity_scores analyzer (max_sentiment_comment summary)))
        (max_sentiment summary) = true /\
  py_eq (compound (polarity_scores analyzer (min_sentiment_comment summary)))
        (min_sentiment summary) = true.
Proof.
  intros H Hget.
  destruct (comments_sentiment_analysis_entry _ _ _ _ _ _ _ H Hget)
    as [value [_ [_ Hs]]].
  unfold scorer_of in Hs. simpl in Hs. rewrite vader_sentiment_analysis_map in Hs.
  apply summarise_inv in Hs
    as [_ [_ [_ [_ [[i [[[a [Ha Ea]] _] Hci]] [j [[[b [Hb Eb]] _] Hcj]]]]]]].
  rewrite nth_error_map in Ha, Hb. rewrite Hci in Ha. rewrite Hcj in Hb.
  simpl in Ha, Hb. inversion Ha; subst. inversion Hb; subst. auto.
Qed.

(** * The claims *)

(** C1, at the input that breaks it: a group of three comments, the first of
    510 tokens, under "ml".  The scores are those of "bad" and "good"; the
    greatest is that of "good", at position 1 of the scores, and the comment
    reported with it is the one at position 1 of the group, "bad", whose own
    score is another, negative, number.  The least is at position 0, and the
    comment reported with it is the first one, which has no score at all. *)
Theorem C1_ml_reports_comment_with_another_score :
  exists summary,
    Demo.analyse [("2023-01", [Demo.oversized; "bad"; "good"])] "ml"
    = Ok [("2023-01", summary)] /\
    huggingface_sentiment_analysis Demo.sentiment_pipeline [Demo.oversized; "bad"; "good"]
    = [Float.neg Demo.negative_confidence; Demo.positive_confidence] /\
    max_sentiment summary = Demo.positive_confidence /\
    max_sentiment_comment summary = "bad" /\
    signed_score (classification_of Demo.sentiment_pipeline "bad")
    = Float.neg Demo.negative_confidence /\
    py_eq (signed_score (classification_of Demo.sentiment_pipeline "bad"))
          (max_sentiment summary) = false /\
    min_sentiment_comment summary = Demo.oversized /\
    huggingface_sentiment_analysis Demo.sentiment_pipeline [Demo.oversized] = [].
Proof.
  eexists. split; [vm_compute; reflexivity|].
  split; [vm_compute; reflexivity|].
  split; [reflexivity|]. split; [reflexivity|].
  split; [vm_compute; reflexivity|].
  split; [vm_compute; reflexivity|].
  split; [vm_compute; reflexivity|].
  vm_compute; reflexivity.
Qed.

(** C2: under method "ml", a mapping that has a group with a comment in it,
    all of whose comments have 510 tokens or more, makes
    [comments_sentiment_analysis] raise the division-by-zero error; and
    whatever the method, the function raises nothing else: an exception is the
    division by zero, under "ml", caused by such a group. *)
Theorem C2_all_oversized_group_divides_by_zero analyzer P comments :
  (forall key value,
      In (key, value) comments -> value <> [] ->
      Forall (fun comment => fits P comment = false) value ->
      comments_sentiment_analysis analyzer P comments "ml" = Raise ZeroDivisionError) /\
  (forall method e,
      comments_sentiment_analysis analyzer P comments method = Raise e ->
      e = ZeroDivisionError /\ method = "ml" /\
      exists key value,
        In (key, value) comments /\ value <> [] /\
        Forall (fun comment => fits P comment = false) value).
Proof.
  assert (Honly : forall method e,
      comments_sentiment_analysis analyzer P comments method = Raise e ->
      e = ZeroDivisionError /\ method = "ml" /\
      exists key value,
        In (key, value) comments /\ value <> [] /\
        Forall (fun comment => fits P comment = false) value).
  { intros method e H.
    apply comments_sentiment_analysis_Raise in H
      as [key [value [Hin [Hne [Hm Hs]]]]].
    apply summarise_Raise in Hs as [-> Hnil]; [|apply scorer_of_length].
    unfold scorer_of in Hnil.
    destruct (String.eqb method "vader") eqn:Ev.
    - rewrite vader_sentiment_analysis_map in Hnil.
      destruct value; [congruence | discriminate].
    - destruct Hm as [Hm|Hm]; [discriminate|].
      apply String.eqb_eq in Hm. subst method.
      repeat split. exists key, value.
      repeat split; try assumption.
      now apply huggingface_sentiment_analysis_nil. }
  split; [|exact Honly].
  intros key value Hin Hne Hall.
  destruct (comments_sentiment_analysis analyzer P comments "ml") as [r|e] eqn:H.
  - exfalso.
    apply comments_sentiment_analysis_Ok in H as [results [Hloop _]]. simpl in Hloop.
    destruct (for_items_Ok _ _ _ _ _ _ Hloop Hin Hne) as [summary Hs].
    apply huggingface_sentiment_analysis_nil in Hall. rewrite Hall in Hs.
    discriminate.
  - apply Honly in H as [-> _]. reflexivity.
Qed.

(** A group whose only comment has 510 tokens. *)
Lemma C2_witness :
  Demo.analyse [("2023-02", ["great"]); ("2023-01", [Demo.oversized])] "ml"
  = Raise ZeroDivisionError.
Proof.
  apply (proj1 (C2_all_oversized_group_divides_by_zero
                  Demo.analyzer Demo.sentiment_pipeline
                  [("2023-02", ["great"]); ("2023-01", [Demo.oversized])])
               "2023-01" [Demo.oversized]).
  - simpl. right. left. reflexivity.
  - discriminate.
  - constructor; [vm_compute; reflexivity | constructor].
Defined.

(** C3: [vader_sentiment_analysis] returns as many scores as it is given
    comments, the score at each position is the compound score of the comment
    at that position, whatever its length, and every score is in [-1, 1], as
    the compound scores of the analyzer are. *)
Theorem C3_vader_scores_are_parallel_and_bounded analyzer comments :
  analyzer_bounded analyzer ->
  List.length (vader_sentiment_analysis analyzer comments) = List.length comments /\
  (forall i,
      nth_error (vader_sentiment_analysis analyzer comments) i =
      option_map (fun comment => compound (polarity_scores analyzer comment))
                 (nth_error comments i)) /\
  Forall (fun s => Float.in_unit s = true) (vader_sentiment_analysis analyzer comments).
Proof.
  intros HA. rewrite vader_sentiment_analysis_map. split; [apply length_map|]. split.
  - intros i. apply nth_error_map.
  - rewrite Forall_map. apply Forall_forall. intros c _. apply HA.
Qed.

(** Three comments, one of them of 510 words. *)
Lemma C3_witness :
  analyzer_bounded Demo.analyzer /\
  List.length (vader_sentiment_analysis Demo.analyzer ["great"; Demo.oversized; "terrible"]) = 3 /\
  Forall (fun s => Float.in_unit s = true)
         (vader_sentiment_analysis Demo.analyzer ["great"; Demo.oversized; "terrible"]).
Proof.
  split; [exact demo_analyzer_bounded|].
  destruct (C3_vader_scores_are_parallel_and_bounded
              Demo.analyzer ["great"; Demo.oversized; "terrible"] demo_analyzer_bounded)
    as [Hlen [_ Hall]].
  split; [exact Hlen | exact Hall].
Defined.

(** C4: [huggingface_sentiment_analysis] scores exactly the comments of fewer
    than 510 tokens, one score each and in their order, and nothing stands in
    for the others; so it returns at most as many scores as it was given
    comments, and as many exactly when every comment has fewer than 510
    tokens. *)
Theorem C4_oversized_comments_get_no_score P comments :
  huggingface_sentiment_analysis P comments =
    map (fun comment => signed_score (classification_of P comment))
        (filter (fits P) comments) /\
  List.length (huggingface_sentiment_analysis P comments) <= List.length comments /\
  (List.length (huggingface_sentiment_analysis P comments) = List.length comments <->
   Forall (fun comment => fits P comment = true) comments).
Proof.
  rewrite huggingface_sentiment_analysis_filter, length_map.
  split; [reflexivity|]. split.
  - apply filter_length_le.
  - apply filter_length_eq.
Qed.

(** C5: in [huggingface_sentiment_analysis], the score kept for a comment is
    the confidence of the classifier when the label is "POSITIVE" and its
    opposite when the label is "NEGATIVE"; when the confidence is in [0, 1] the
    score is in [-1, 1]. *)
Theorem C5_label_gives_the_sign P comments :
  Forall2
    (fun comment s =>
       let sentiment := classification_of P comment in
       (label sentiment = "POSITIVE" -> s = score sentiment) /\
       (label sentiment = "NEGATIVE" -> s = Float.neg (score sentiment)) /\
       (Float.in_01 (score sentiment) = true -> Float.in_unit s = true))
    (filter (fits P) comments)
    (huggingface_sentiment_analysis P comments).
Proof.
  rewrite huggingface_sentiment_analysis_filter.
  induction (filter (fits P) comments) as [|c l IH]; simpl; constructor; [|exact IH].
  unfold signed_score. repeat split.
  - intros ->. reflexivity.
  - intros ->. reflexivity.
  - apply signed_score_in_unit.
Qed.

(** C6: in the result of [comments_sentiment_analysis], whatever the method,
    a key whose list of comments is empty has no entry, and neither has a key
    the input does not have. *)
Theorem C6_empty_and_absent_groups_have_no_entry analyzer P comments method r key :
  dict_wf comments ->
  comments_sentiment_analysis analyzer P comments method = Ok r ->
  dict_get comments key = Some [] \/ dict_get comments key = None ->
  dict_get r key = None.
Proof.
  intros Hwf H Hkey.
  destruct (dict_get r key) as [summary|] eqn:Hget; [exfalso | reflexivity].
  destruct (comments_sentiment_analysis_entry _ _ _ _ _ _ _ H Hget)
    as [value [Hin [Hne _]]].
  apply (In_dict_get _ _ _ Hwf) in Hin.
  destruct Hkey as [Hkey|Hkey]; congruence.
Qed.

(** A group without comments next to a group with two. *)
Lemma C6_witness :
  Demo.analyse [("2023-02", []); ("2023-01", ["great"; "terrible"])] "vader"
  = Ok [("2023-01",
         {| avg_sentiment := S754_finite false 5339467718210460 (-56);
            max_sentiment_comment := "great";
            max_sentiment := Demo.great_score;
            min_sentiment_comment := "terrible";
            min_sentiment := Demo.terrible_score |})] /\
  dict_get [("2023-01",
         {| avg_sentiment := S754_finite false 5339467718210460 (-56);
            max_sentiment_comment := "great";
            max_sentiment := Demo.great_score;
            min_sentiment_comment := "terrible";
            min_sentiment := Demo.terrible_score |})] "2023-02" = None.
Proof.
  assert (H : Demo.analyse [("2023-02", []); ("2023-01", ["great"; "terrible"])] "vader"
  = Ok [("2023-01",
         {| avg_sentiment := S754_finite false 5339467718210460 (-56);
            max_sentiment_comment := "great";
            max_sentiment := Demo.great_score;
            min_sentiment_comment := "terrible";
            min_sentiment := Demo.terrible_score |})]) by (vm_compute; reflexivity).
  split; [exact H|].
  apply (C6_empty_and_absent_groups_have_no_entry
           Demo.analyzer Demo.sentiment_pipeline
           [("2023-02", []); ("2023-01", ["great"; "terrible"])] "vader").
  - repeat constructor; simpl; intuition discriminate.
  - exact H.
  - left. reflexivity.
Defined.

(** C7: with a method that is neither "vader" nor "ml",
    [comments_sentiment_analysis] returns the empty mapping, and raises
    nothing, whatever the input. *)
Theorem C7_unsupported_method_gives_empty_mapping analyzer P comments method :
  method <> "vader" -> method <> "ml" ->
  comments_sentiment_analysis analyzer P comments method = Ok [].
Proof.
  intros Hv Hm. apply String.eqb_neq in Hv, Hm.
  unfold comments_sentiment_analysis. now rewrite Hv, Hm.
Qed.

(** The method "unknown". *)
Lemma C7_witness :
  "unknown" <> "vader" /\ "unknown" <> "ml" /\
  Demo.analyse [("2023-01", ["great"; "terrible"])] "unknown" = Ok [].
Proof.
  split; [discriminate|]. split; [discriminate|].
  apply C7_unsupported_method_gives_empty_mapping; discriminate.
Defined.

(** C8: the keys of the mapping [comments_sentiment_analysis] returns are in
    strictly ascending lexicographic order, in whatever order the input lists
    its groups. *)
Theorem C8_result_keys_ascend analyzer P comments method r :
  comments_sentiment_analysis analyzer P comments method = Ok r ->
  StronglySorted (fun k1 k2 => String.ltb k1 k2 = true) (dict_keys r).
Proof.
  intros H.
  apply comments_sentiment_analysis_Ok in H as [results [_ [Hwf ->]]].
  apply key_lt_strongly_sorted, sorted_by_key_sorted, Hwf.
Qed.

(** Three groups given in descending order of their keys. *)
Lemma C8_witness :
  exists r,
    Demo.analyse [("2023-10", ["great"]); ("2023-02", ["good"]); ("2022-12", ["terrible"])]
                 "vader" = Ok r /\
    dict_keys r = ["2022-12"; "2023-02"; "2023-10"] /\
    StronglySorted (fun k1 k2 => String.ltb k1 k2 = true) (dict_keys r).
Proof.
  eexists. split; [vm_compute; reflexivity|]. split; [reflexivity|].
  apply (C8_result_keys_ascend Demo.analyzer Demo.sentiment_pipeline
           [("2023-10", ["great"]); ("2023-02", ["good"]); ("2022-12", ["terrible"])]
           "vader").
  vm_compute. reflexivity.
Defined.




(** C10: the greatest score reported is a score of the group that no score of
    the group is greater than, the least one a score that none is less than;
    the comment reported with an extreme is the comment of the group at the
    first position of the list of scores whose score passes the test of
    [index] against that extreme, so that among equal scores the first wins.
    Under "vader", and under "ml" when every comment of the group has fewer
    than 510 tokens, the score at a position is the score of the comment at
    that position. *)
Theorem C10_first_occurrence_wins analyzer P comments method r key summary :
  comments_sentiment_analysis analyzer P comments method = Ok r ->
  dict_get r key = Some summary ->
  exists value i j,
    In (key, value) comments /\
    py_max (scorer_of analyzer P method value) = Ok (max_sentiment summary) /\
    first_match (scorer_of analyzer P method value) (max_sentiment summary) i /\
    nth_error value i = Some (max_sentiment_comment summary) /\
    py_min (scorer_of analyzer P method value) = Ok (min_sentiment summary) /\
    first_match (scorer_of analyzer P method value) (min_sentiment summary) j /\
    nth_error value j = Some (min_sentiment_comment summary) /\
    (method = "vader" ->
     scorer_of analyzer P method value =
     map (fun comment => compound (polarity_scores analyzer comment)) value) /\
    (method = "ml" -> Forall (fun comment => fits P comment = true) value ->
     scorer_of analyzer P method value =
     map (fun comment => signed_score (classification_of P comment)) value) /\
    In (max_sentiment summary) (scorer_of analyzer P method value) /\
    Forall (fun s => Float.gtb s (max_sentiment summary) = false)
           (scorer_of analyzer P method value) /\
    In (min_sentiment summary) (scorer_of analyzer P method value) /\
    Forall (fun s => Float.ltb s (min_sentiment summary) = false)
           (scorer_of analyzer P method value).
Proof.
  intros H Hget.
  destruct (comments_sentiment_analysis_entry _ _ _ _ _ _ _ H Hget)
    as [value [Hin [Hne Hs]]].
  apply summarise_inv in Hs
    as [_ [_ [Hmax [Hmin [[i [Hi Hci]] [j [Hj Hcj]]]]]]].
  exists value, i, j.
  split; [exact Hin|]. split; [exact Hmax|]. split; [exact Hi|].
  split; [exact Hci|]. split; [exact Hmin|]. split; [exact Hj|].
  split; [exact Hcj|]. split; [|split].
  - intros ->. unfold scorer_of. simpl. apply vader_sentiment_analysis_map.
  - intros -> Hall. unfold scorer_of. simpl.
    rewrite huggingface_sentiment_analysis_filter. f_equal.
    apply forallb_filter_id. now apply forallb_forall, Forall_forall.
  - split; [exact (py_max_In _ _ Hmax)|].
    split; [exact (py_max_none_greater _ _ Hmax)|].
    split; [exact (py_min_In _ _ Hmin)|].
    exact (py_min_none_less _ _ Hmin).
Qed.

(** Five comments, the greatest score at positions 2 and 4 and the least at
    positions 1 and 3: the comments at positions 2 and 1 are reported, and no
    score is above the one or below the other. *)
Lemma C10_witness :
  exists value i j,
    In ("2023-01", value)
       [("2023-01", ["good"; "terrible"; "great"; "terrible"; "great"])] /\
    first_match (vader_sentiment_analysis Demo.analyzer value) Demo.great_score i /\
    i = 2 /\
    nth_error value i = Some "great" /\
    first_match (vader_sentiment_analysis Demo.analyzer value) Demo.terrible_score j /\
    j = 1 /\
    nth_error value j = Some "terrible" /\
    Forall (fun s => Float.gtb s Demo.great_score = false)
           (vader_sentiment_analysis Demo.analyzer value) /\
    Forall (fun s => Float.ltb s Demo.terrible_score = false)
           (vader_sentiment_analysis Demo.analyzer value).
Proof.
  destruct (C10_first_occurrence_wins Demo.analyzer Demo.sentiment_pipeline
              [("2023-01", ["good"; "terrible"; "great"; "terrible"; "great"])] "vader"
              [("2023-01",
                {| avg_sentiment := S754_finite false 5309203528714530 (-55);
                   max_sentiment_comment := "great";
                   max_sentiment := Demo.great_score;
                   min_sentiment_comment := "terrible";
                   min_sentiment := Demo.terrible_score |})]
              "2023-01"
              {| avg_sentiment := S754_finite false 5309203528714530 (-55);
                 max_sentiment_comment := "great";
                 max_sentiment := Demo.great_score;
                 min_sentiment_comment := "terrible";
                 min_sentiment := Demo.terrible_score |})
    as [value [i [j [Hin [_ [Hi [Hci [_ [Hj [Hcj [_ [_ [_ [Hgt [_ Hlt]]]]]]]]]]]]]]].
  - vm_compute. reflexivity.
  - reflexivity.
  - exists value, i, j.
    assert (Hv : value = ["good"; "terrible"; "great"; "terrible"; "great"]).
    { destruct Hin as [Heq|[]]. now injection Heq. }
    subst value.
    assert (Ei : i = 2).
    { apply (first_match_unique _ _ _ _ Hi). split.
      - exists Demo.great_score. split; vm_compute; reflexivity.
      - intros [|[|k]] item Hk Hn; try lia;
          vm_compute in Hn; injection Hn as <-; vm_compute; reflexivity. }
    assert (Ej : j = 1).
    { apply (first_match_unique _ _ _ _ Hj). split.
      - exists Demo.terrible_score. split; vm_compute; reflexivity.
      - intros [|k] item Hk Hn; try lia;
          vm_compute in Hn; injection Hn as <-; vm_compute; reflexivity. }
    split; [now left|]. split; [exact Hi|]. split; [exact Ei|].
    split; [exact Hci|]. split; [exact Hj|]. split; [exact Ej|].
    split; [exact Hcj|]. split; [exact Hgt | exact Hlt].
Defined.

(** * Further properties of the module *)

(** ** The scorers *)

(** X3: [huggingface_sentiment_analysis] never truncates: the slice of the first
    510 tokens is taken of a list of fewer than 510 tokens, so the text that is
    classified is made of all the tokens of the comment. *)
Theorem huggingface_classifies_all_tokens P comments :
  huggingface_sentiment_analysis P comments =
  map (fun comment =>
         signed_score
           (classify P (convert_tokens_to_string P (tokenize P comment))))
      (filter (fits P) comments).
Proof.
  rewrite huggingface_sentiment_analysis_filter.
  apply map_ext_in. intros comment Hin.
  apply filter_In in Hin as [_ Hfits].
  unfold classification_of, fits in *. apply Nat.ltb_lt in Hfits.
  rewrite firstn_all2 by lia. reflexivity.
Qed.

(** X4: both scorers score comment by comment: the scores of two lists put end to
    end are the scores of the first followed by the scores of the second. *)
Theorem scorers_distribute_over_concatenation analyzer P comments comments' :
  vader_sentiment_analysis analyzer (comments ++ comments') =
    vader_sentiment_analysis analyzer comments ++
    vader_sentiment_analysis analyzer comments' /\
  huggingface_sentiment_analysis P (comments ++ comments') =
    huggingface_sentiment_analysis P comments ++
    huggingface_sentiment_analysis P comments'.
Proof.
  rewrite !vader_sentiment_analysis_map, !huggingface_sentiment_analysis_filter.
  rewrite filter_app, !map_app. split; reflexivity.
Qed.

(** The comments [huggingface_sentiment_analysis] skips leave no trace in its
    result: without them the scores are the same. *)
Lemma huggingface_sentiment_analysis_drop P comments :
  huggingface_sentiment_analysis P (filter (fits P) comments) =
  huggingface_sentiment_analysis P comments.
Proof.
  rewrite !huggingface_sentiment_analysis_filter. f_equal.
  induction comments as [|c comments IH]; simpl; [reflexivity|].
  destruct (fits P c) eqn:E; simpl; [rewrite E; f_equal|]; exact IH.
Qed.

(** ** The loop, group by group *)

Lemma for_items_untouched scorer items results r key :
  for_items scorer items results = Ok r ->
  ~ In key (map fst items) ->
  dict_get r key = dict_get results key.
Proof.
  revert results; induction items as [|[k value] items IH]; simpl; intros results H Hnin.
  - inversion H; subst. reflexivity.
  - destruct value as [|c value].
    + apply IH; [assumption | tauto].
    + apply bind_Ok in H as [s [_ H]].
      rewrite (IH _ H) by tauto. rewrite dict_get_set.
      destruct (String.eqb k key) eqn:E; [|reflexivity].
      apply String.eqb_eq in E. tauto.
Qed.

(** When the keys are distinct, every group that has a comment has its entry
    in the result of the loop. *)
Lemma for_items_complete scorer items results r key value :
  for_items scorer items results = Ok r ->
  NoDup (map fst items) ->
  In (key, value) items -> value <> [] ->
  exists summary,
    summarise value (scorer value) = Ok summary /\ dict_get r key = Some summary.
Proof.
  revert results; induction items as [|[k v] items IH]; simpl;
    intros results H Hnd Hin Hne; [contradiction|].
  inversion Hnd as [|? ? Hfresh Hnd']; subst.
  destruct Hin as [Hin|Hin].
  - inversion Hin; subst. destruct value as [|c value]; [congruence|].
    apply bind_Ok in H as [s [Hs H]].
    exists s. split; [exact Hs|].
    rewrite (for_items_untouched _ _ _ _ _ H Hfresh), dict_get_set.
    now rewrite String.eqb_refl.
  - destruct v as [|c v]; [eauto|].
    apply bind_Ok in H as [s [_ H]]. eauto.
Qed.

Lemma dict_get_sorted_by_key {V : Type} (d : dict V) k :
  dict_wf d -> dict_get (sorted_by_key d) k = dict_get d k.
Proof.
  intros Hwf.
  assert (Hwf' : dict_wf (sorted_by_key d)).
  { eapply Permutation_NoDup; [|exact Hwf].
    apply Permutation_map, sorted_by_key_perm. }
  destruct (dict_get d k) as [v|] eqn:E.
  - apply In_dict_get; [assumption|].
    eapply Permutation_in; [apply sorted_by_key_perm | now apply dict_get_In].
  - destruct (dict_get (sorted_by_key d) k) as [v|] eqn:E'; [|reflexivity].
    apply dict_get_In in E'.
    apply (Permutation_in _ (Permutation_sym (sorted_by_key_perm d))) in E'.
    apply (In_dict_get _ _ _ Hwf) in E'. congruence.
Qed.

Lemma supported_cases method :
  supported method = true -> method = "vader" \/ method = "ml".
Proof.
  unfold supported. intros H. apply orb_true_iff in H as [H|H];
    apply String.eqb_eq in H; auto.
Qed.

(** The loop a method selects. *)
Lemma comments_sentiment_analysis_loop analyzer P comments method :
  supported method = true ->
  comments_sentiment_analysis analyzer P comments method =
  (results <- for_items (scorer_of analyzer P method) comments [] ;;
   Ok (dict_of_items (sorted_by_key results))).
Proof.
  intros H. unfold comments_sentiment_analysis, scorer_of.
  destruct (supported_cases _ H) as [-> | ->]; reflexivity.
Qed.

Lemma comments_sentiment_analysis_unsupported analyzer P comments method :
  supported method = false ->
  comments_sentiment_analysis analyzer P comments method = Ok [].
Proof.
  unfold supported, comments_sentiment_analysis. intros H.
  apply orb_false_iff in H as [-> ->]. reflexivity.
Qed.

Lemma comments_sentiment_analysis_complete
    analyzer P comments method r key value :
  dict_wf comments -> supported method = true ->
  comments_sentiment_analysis analyzer P comments method = Ok r ->
  In (key, value) comments -> value <> [] ->
  exists summary,
    summarise value (scorer_of analyzer P method value) = Ok summary /\
    dict_get r key = Some summary.
Proof.
  intros Hwf Hm H Hin Hne.
  rewrite (comments_sentiment_analysis_loop _ _ _ _ Hm) in H.
  apply bind_Ok in H as [results' [Hloop H]].
  injection H as Heq. subst r.
  assert (Hwfr : dict_wf results')
    by (eapply for_items_wf; [exact Hloop | constructor]).
  rewrite (dict_of_items_wf (sorted_by_key results')).
  2:{ eapply Permutation_NoDup;
        [apply Permutation_map, sorted_by_key_perm | exact Hwfr]. }
  destruct (for_items_complete _ _ _ _ _ _ Hloop Hwf Hin Hne) as [s [Hs Hget]].
  exists s. split; [exact Hs|].
  rewrite dict_get_sorted_by_key; assumption.
Qed.

(** The analysis of a mapping of one group. *)
Lemma comments_sentiment_analysis_single analyzer P key value method :
  comments_sentiment_analysis analyzer P [(key, value)] method =
  if supported method && has_comments (key, value) then
    summary <- summarise value (scorer_of analyzer P method value) ;;
    Ok [(key, summary)]
  else Ok [].
Proof.
  destruct (supported method) eqn:Hm; simpl.
  - rewrite (comments_sentiment_analysis_loop _ _ _ _ Hm). simpl.
    destruct value as [|c value]; simpl; [reflexivity|].
    destruct (summarise (c :: value) (scorer_of analyzer P method (c :: value)));
      reflexivity.
  - now apply comments_sentiment_analysis_unsupported.
Qed.

Lemma dict_keys_get {V : Type} (d : dict V) k :
  In k (dict_keys d) <-> exists v, dict_get d k = Some v.
Proof.
  induction d as [|[k0 v0] d IH]; simpl.
  - split; [contradiction | intros [v Hv]; discriminate].
  - destruct (String.eqb k0 k) eqn:E.
    + apply String.eqb_eq in E. split; [eauto | auto].
    + apply String.eqb_neq in E. rewrite IH. split; [|tauto].
      intros [H|H]; [contradiction | exact H].
Qed.

Lemma has_comments_true key (value : list string) :
  has_comments (key, value) = true <-> value <> [].
Proof.
  destruct value; simpl; split; intros H; try discriminate; try reflexivity.
  now contradiction H.
Qed.

(** ** The groups are analysed one by one *)

(** X5: the entry of a key in the result is the entry the group of that key gets
    when it is analysed alone, and only the groups that get one alone have an
    entry. *)
Theorem entries_are_the_analyses_of_the_single_groups
    analyzer P comments method r key summary :
  dict_wf comments ->
  comments_sentiment_analysis analyzer P comments method = Ok r ->
  dict_get r key = Some summary <->
  exists value,
    dict_get comments key = Some value /\
    comments_sentiment_analysis analyzer P [(key, value)] method
    = Ok [(key, summary)].
Proof.
  intros Hwf H. split.
  - intros Hget.
    destruct (comments_sentiment_analysis_entry _ _ _ _ _ _ _ H Hget)
      as [value [Hin [Hne Hs]]].
    exists value. split; [now apply In_dict_get|].
    rewrite comments_sentiment_analysis_single.
    destruct (supported method) eqn:Hm.
    + apply (has_comments_true key) in Hne. rewrite Hne, Hs. reflexivity.
    + rewrite (comments_sentiment_analysis_unsupported _ _ _ _ Hm) in H.
      inversion H; subst. discriminate.
  - intros [value [Hv Hsingle]].
    rewrite comments_sentiment_analysis_single in Hsingle.
    destruct (supported method) eqn:Hm; [|discriminate].
    destruct (has_comments (key, value)) eqn:Hc; [|discriminate].
    simpl in Hsingle. apply bind_Ok in Hsingle as [s [Hs Heq]].
    inversion Heq; subst s.
    apply has_comments_true in Hc. apply dict_get_In in Hv.
    destruct (comments_sentiment_analysis_complete _ _ _ _ _ _ _ Hwf Hm H Hv Hc)
      as [s' [Hs' Hget]].
    congruence.
Qed.

(** X6: the keys of the result of a supported method are the keys of the groups
    that have a comment. *)
Theorem result_keys_are_the_groups_with_comments
    analyzer P comments method r key :
  dict_wf comments -> supported method = true ->
  comments_sentiment_analysis analyzer P comments method = Ok r ->
  In key (dict_keys r) <->
  exists value, dict_get comments key = Some value /\ value <> [].
Proof.
  intros Hwf Hm H. rewrite dict_keys_get. split.
  - intros [summary Hget].
    destruct (comments_sentiment_analysis_entry _ _ _ _ _ _ _ H Hget)
      as [value [Hin [Hne _]]].
    exists value. split; [now apply In_dict_get | exact Hne].
  - intros [value [Hv Hne]]. apply dict_get_In in Hv.
    destruct (comments_sentiment_analysis_complete _ _ _ _ _ _ _ Hwf Hm H Hv Hne)
      as [s [_ Hget]].
    eauto.
Qed.

Lemma for_items_has_comments scorer items results :
  for_items scorer (filter has_comments items) results =
  for_items scorer items results.
Proof.
  revert results; induction items as [|[k value] items IH]; intros results;
    [reflexivity|].
  destruct value as [|c value]; simpl.
  - apply IH.
  - destruct (summarise (c :: value) (scorer (c :: value))); simpl; [apply IH | reflexivity].
Qed.

(** X7: the groups without comments count for nothing: with them or without them
    the outcome is the same, whatever the method, an exception included. *)
Theorem groups_without_comments_are_ignored analyzer P comments method :
  comments_sentiment_analysis analyzer P (filter has_comments comments) method =
  comments_sentiment_analysis analyzer P comments method.
Proof.
  unfold comments_sentiment_analysis.
  now rewrite !for_items_has_comments.
Qed.

(** X8: under "vader" the function raises nothing: it returns a mapping for every
    input. *)
Theorem vader_always_returns analyzer P comments :
  exists r, comments_sentiment_analysis analyzer P comments "vader" = Ok r.
Proof.
  destruct (comments_sentiment_analysis analyzer P comments "vader") as [r|e] eqn:H;
    [eauto|].
  apply comments_sentiment_analysis_Raise in H as [key [value [_ [Hne [_ Hs]]]]].
  apply summarise_Raise in Hs as [_ Hnil]; [|apply scorer_of_length].
  unfold scorer_of in Hnil. simpl in Hnil.
  rewrite vader_sentiment_analysis_map in Hnil.
  destruct value; [congruence | discriminate].
Qed.

(** When none of the comments of a group is skipped, the comment its summary
    reports with an extreme has that extreme for its score. *)
Lemma summarise_aligned P value summary :
  Forall (fun comment => fits P comment = true) value ->
  summarise value (huggingface_sentiment_analysis P value) = Ok summary ->
  py_eq (signed_score (classification_of P (max_sentiment_comment summary)))
        (max_sentiment summary) = true /\
  py_eq (signed_score (classification_of P (min_sentiment_comment summary)))
        (min_sentiment summary) = true.
Proof.
  intros Hfits Hs.
  rewrite huggingface_sentiment_analysis_filter in Hs.
  rewrite forallb_filter_id in Hs by (apply forallb_forall, Forall_forall, Hfits).
  apply summarise_inv in Hs
    as [_ [_ [_ [_ [[i [[[a [Ha Ea]] _] Hci]] [j [[[b [Hb Eb]] _] Hcj]]]]]]].
  rewrite nth_error_map in Ha, Hb. rewrite Hci in Ha. rewrite Hcj in Hb.
  simpl in Ha, Hb. inversion Ha; subst. inversion Hb; subst. auto.
Qed.

(** X2: under "ml", for a group none of whose comments is skipped, the comment
    reported with an extreme has that extreme for its score. *)
Theorem ml_reported_comments_have_reported_scores_when_none_is_skipped
    analyzer P comments r key summary :
  comments_sentiment_analysis analyzer P comments "ml" = Ok r ->
  dict_get r key = Some summary ->
  (forall value, In (key, value) comments ->
                 Forall (fun comment => fits P comment = true) value) ->
  py_eq (signed_score (classification_of P (max_sentiment_comment summary)))
        (max_sentiment summary) = true /\
  py_eq (signed_score (classification_of P (min_sentiment_comment summary)))
        (min_sentiment summary) = true.
Proof.
  intros H Hget Hfits.
  destruct (comments_sentiment_analysis_entry _ _ _ _ _ _ _ H Hget)
    as [value [Hin [_ Hs]]].
  exact (summarise_aligned P value summary (Hfits value Hin) Hs).
Qed.

(** ** The order of the groups in the input *)

Lemma string_compare_refl s : String.compare s s = Eq.
Proof.
  induction s as [|a s IH]; simpl; [reflexivity|].
  now rewrite ascii_compare_refl.
Qed.

Lemma key_lt_irrefl {V : Type} (x : string * V) : ~ key_lt x x.
Proof.
  unfold key_lt, String.ltb. rewrite string_compare_refl. discriminate.
Qed.

Lemma key_lt_trans {V : Type} (x y z : string * V) :
  key_lt x y -> key_lt y z -> key_lt x z.
Proof. unfold key_lt. apply string_ltb_trans. Qed.

(** Two lists in strictly ascending order of keys that have the same items are
    the same list. *)
Lemma strongly_sorted_unique {V : Type} (l l' : list (string * V)) :
  StronglySorted key_lt l -> StronglySorted key_lt l' ->
  (forall x, In x l <-> In x l') -> l = l'.
Proof.
  intros Hl; revert l'; induction Hl as [|a l Hl IH Ha]; intros l' Hl' Hiff.
  - destruct l' as [|b l']; [reflexivity|]. exfalso. apply (Hiff b). now left.
  - destruct Hl' as [|b l' Hl' Hb].
    + exfalso. apply (Hiff a). now left.
    + rewrite Forall_forall in Ha, Hb.
      assert (Hab : a = b).
      { destruct (proj1 (Hiff a) (or_introl eq_refl)) as [E|Hin]; [auto|].
        destruct (proj2 (Hiff b) (or_introl eq_refl)) as [E|Hin']; [auto|].
        exfalso. apply (key_lt_irrefl a).
        eapply key_lt_trans; [apply Ha, Hin' | apply Hb, Hin]. }
      subst b. f_equal. apply IH; [assumption|].
      intros x. split; intros Hx.
      * destruct (proj1 (Hiff x) (or_intror Hx)) as [E|H']; [|assumption].
        subst x. exfalso. apply (key_lt_irrefl a), Ha, Hx.
      * destruct (proj2 (Hiff x) (or_intror Hx)) as [E|H']; [|assumption].
        subst x. exfalso. apply (key_lt_irrefl a), Hb, Hx.
Qed.

Lemma comments_sentiment_analysis_sorted analyzer P comments method r :
  comments_sentiment_analysis analyzer P comments method = Ok r ->
  dict_wf r /\ StronglySorted key_lt r.
Proof.
  intros H.
  apply comments_sentiment_analysis_Ok in H as [results [_ [Hwf ->]]]. split.
  - eapply Permutation_NoDup; [|exact Hwf].
    apply Permutation_map, sorted_by_key_perm.
  - apply Sorted_StronglySorted; [intros x y z; apply key_lt_trans|].
    now apply sorted_by_key_sorted.
Qed.

(** The items of the result, for a supported method. *)
Lemma comments_sentiment_analysis_items analyzer P comments method r key summary :
  dict_wf comments -> supported method = true ->
  comments_sentiment_analysis analyzer P comments method = Ok r ->
  In (key, summary) r <->
  exists value,
    In (key, value) comments /\ value <> [] /\
    summarise value (scorer_of analyzer P method value) = Ok summary.
Proof.
  intros Hwf Hm H.
  destruct (comments_sentiment_analysis_sorted _ _ _ _ _ H) as [Hwfr _]. split.
  - intros Hin. apply (In_dict_get _ _ _ Hwfr) in Hin.
    exact (comments_sentiment_analysis_entry _ _ _ _ _ _ _ H Hin).
  - intros [value [Hin [Hne Hs]]].
    destruct (comments_sentiment_analysis_complete _ _ _ _ _ _ _ Hwf Hm H Hin Hne)
      as [s' [Hs' Hget]].
    apply dict_get_In. congruence.
Qed.

Lemma comments_sentiment_analysis_Raise_zero analyzer P comments method e :
  comments_sentiment_analysis analyzer P comments method = Raise e ->
  e = ZeroDivisionError.
Proof.
  intros H.
  apply comments_sentiment_analysis_Raise in H as [key [value [_ [_ [_ Hs]]]]].
  apply summarise_Raise in Hs as [-> _]; [reflexivity | apply scorer_of_length].
Qed.

Lemma comments_sentiment_analysis_Raise_not_Ok
    analyzer P comments comments' method e r :
  dict_wf comments' -> Permutation comments comments' ->
  comments_sentiment_analysis analyzer P comments method = Raise e ->
  comments_sentiment_analysis analyzer P comments' method = Ok r ->
  False.
Proof.
  intros Hwf Hperm H H'.
  apply comments_sentiment_analysis_Raise in H as [key [value [Hin [Hne [Hm Hs]]]]].
  assert (Hsup : supported method = true).
  { unfold supported. destruct Hm as [-> | ->]; [reflexivity | apply orb_true_r]. }
  apply (Permutation_in _ Hperm) in Hin.
  destruct (comments_sentiment_analysis_complete _ _ _ _ _ _ _ Hwf Hsup H' Hin Hne)
    as [s [Hs' _]].
  congruence.
Qed.

(** X9: the outcome does not depend on the order in which the mapping lists its
    groups: the same result, entries and order, or the same exception. *)
Theorem outcome_does_not_depend_on_the_order_of_the_groups
    analyzer P comments comments' method :
  dict_wf comments -> Permutation comments comments' ->
  comments_sentiment_analysis analyzer P comments' method =
  comments_sentiment_analysis analyzer P comments method.
Proof.
  intros Hwf Hperm.
  assert (Hwf' : dict_wf comments').
  { eapply Permutation_NoDup; [apply Permutation_map, Hperm | exact Hwf]. }
  destruct (supported method) eqn:Hm.
  2:{ now rewrite !comments_sentiment_analysis_unsupported. }
  destruct (comments_sentiment_analysis analyzer P comments method) as [r|e] eqn:H;
  destruct (comments_sentiment_analysis analyzer P comments' method) as [r'|e'] eqn:H'.
  - f_equal.
    destruct (comments_sentiment_analysis_sorted _ _ _ _ _ H) as [_ Hs].
    destruct (comments_sentiment_analysis_sorted _ _ _ _ _ H') as [_ Hs'].
    apply strongly_sorted_unique; try assumption.
    intros [key summary].
    rewrite (comments_sentiment_analysis_items _ _ _ _ _ _ _ Hwf' Hm H').
    rewrite (comments_sentiment_analysis_items _ _ _ _ _ _ _ Hwf Hm H).
    split; intros [value [Hin Hrest]]; exists value; split; try assumption.
    + eapply Permutation_in; [apply Permutation_sym, Hperm | exact Hin].
    + eapply Permutation_in; [exact Hperm | exact Hin].
  - exfalso.
    exact (comments_sentiment_analysis_Raise_not_Ok
             _ _ _ _ _ _ _ Hwf (Permutation_sym Hperm) H' H).
  - exfalso.
    exact (comments_sentiment_analysis_Raise_not_Ok _ _ _ _ _ _ _ Hwf' Hperm H H').
  - apply comments_sentiment_analysis_Raise_zero in H, H'. congruence.
Qed.

(** ** The comments that are skipped *)

Lemma dict_set_same_numbers d d' k s s' :
  Forall2 same_numbers d d' -> same_numbers (k, s) (k, s') ->
  Forall2 same_numbers (dict_set d k s) (dict_set d' k s').
Proof.
  intros Hd Hs. induction Hd as [|[k1 s1] [k2 s2] d d' Hh Ht IH]; simpl.
  - constructor; [assumption | constructor].
  - pose proof Hh as [Hk Hnum]. simpl in Hk. subst k2.
    destruct (String.eqb k1 k).
    + constructor; [|assumption].
      destruct Hs as [_ Hs]. split; [reflexivity | exact Hs].
    + constructor; assumption.
Qed.

Lemma insert_by_key_same_numbers x x' l l' :
  same_numbers x x' -> Forall2 same_numbers l l' ->
  Forall2 same_numbers (insert_by_key x l) (insert_by_key x' l').
Proof.
  intros Hx Hl. induction Hl as [|y y' l l' Hy Hl IH]; simpl.
  - constructor; [assumption | constructor].
  - destruct Hx as [Hkx Hnx]. destruct Hy as [Hky Hny].
    rewrite <- Hkx, <- Hky.
    destruct (String.ltb (fst y) (fst x)).
    + constructor; [split; assumption | apply IH].
    + constructor; [split; assumption|].
      constructor; [split; assumption | assumption].
Qed.

Lemma sorted_by_key_same_numbers l l' :
  Forall2 same_numbers l l' ->
  Forall2 same_numbers (sorted_by_key l) (sorted_by_key l').
Proof.
  induction 1 as [|x x' l l' Hx Hl IH]; simpl; [constructor|].
  now apply insert_by_key_same_numbers.
Qed.

(** The summary of a group and the summary of what the scorer keeps of it
    have the same numbers. *)
Lemma summarise_drop_oversized P value summary :
  summarise value (huggingface_sentiment_analysis P value) = Ok summary ->
  filter (fits P) value <> [] /\
  exists summary',
    summarise (filter (fits P) value)
              (huggingface_sentiment_analysis P (filter (fits P) value))
    = Ok summary' /\
    avg_sentiment summary = avg_sentiment summary' /\
    max_sentiment summary = max_sentiment summary' /\
    min_sentiment summary = min_sentiment summary'.
Proof.
  intros Hs. rewrite huggingface_sentiment_analysis_drop.
  pose proof (summarise_inv _ _ _ Hs) as [Hne [Havg [Hmax [Hmin _]]]].
  assert (Hkept : filter (fits P) value <> []).
  { intros Hnil. apply Hne.
    rewrite huggingface_sentiment_analysis_filter, Hnil. reflexivity. }
  split; [exact Hkept|].
  destruct (summarise_ok (filter (fits P) value)
                         (huggingface_sentiment_analysis P value) Hne)
    as [summary' Hs'].
  { rewrite huggingface_sentiment_analysis_filter, length_map. apply Nat.le_refl. }
  exists summary'. split; [exact Hs'|].
  apply summarise_inv in Hs' as [_ [Havg' [Hmax' [Hmin' _]]]].
  repeat split; congruence.
Qed.

Lemma for_items_drop_oversized P items results results' r :
  for_items (huggingface_sentiment_analysis P) items results = Ok r ->
  Forall2 same_numbers results results' ->
  exists r',
    for_items (huggingface_sentiment_analysis P) (drop_oversized P items) results'
    = Ok r' /\
    Forall2 same_numbers r r'.
Proof.
  revert results results'; induction items as [|[k value] items IH];
    intros results results' H Hres.
  - simpl in *. inversion H; subst. eauto.
  - destruct value as [|c value]; [exact (IH _ _ H Hres)|].
    simpl in H. apply bind_Ok in H as [s [Hs H]].
    destruct (summarise_drop_oversized _ _ _ Hs) as [Hkept [s' [Hs' Hnum]]].
    assert (Hstep : Forall2 same_numbers (dict_set results k s) (dict_set results' k s')).
    { apply dict_set_same_numbers; [assumption | split; [reflexivity | exact Hnum]]. }
    destruct (IH _ _ H Hstep) as [r' [Hr' Hrr']].
    exists r'. split; [|exact Hrr'].
    change (drop_oversized P ((k, c :: value) :: items))
      with ((k, filter (fits P) (c :: value)) :: drop_oversized P items).
    cbn [for_items].
    destruct (filter (fits P) (c :: value)) as [|c' kept] eqn:Ek; [congruence|].
    rewrite Hs'. exact Hr'.
Qed.

(** X10: under "ml", the comments that are skipped weigh nothing in the numbers:
    the result for the mapping without them has the same keys in the same
    order and, key by key, the same average, maximum and minimum. *)
Theorem skipped_comments_do_not_change_the_numbers analyzer P comments r :
  comments_sentiment_analysis analyzer P comments "ml" = Ok r ->
  exists r',
    comments_sentiment_analysis analyzer P (drop_oversized P comments) "ml" = Ok r' /\
    Forall2 same_numbers r r'.
Proof.
  intros H.
  rewrite comments_sentiment_analysis_loop in * by reflexivity.
  change (scorer_of analyzer P "ml") with (huggingface_sentiment_analysis P) in *.
  apply bind_Ok in H as [results [Hloop H]]. injection H as <-.
  destruct (for_items_drop_oversized P comments [] [] results Hloop (Forall2_nil _))
    as [results' [Hloop' Hsame]].
  rewrite Hloop'. cbn [bind]. eexists. split; [reflexivity|].
  rewrite !dict_of_items_wf.
  - now apply sorted_by_key_same_numbers.
  - eapply Permutation_NoDup; [apply Permutation_map, sorted_by_key_perm|].
    eapply for_items_wf; [exact Hloop' | constructor].
  - eapply Permutation_NoDup; [apply Permutation_map, sorted_by_key_perm|].
    eapply for_items_wf; [exact Hloop | constructor].
Qed.

(** ** Groups whose scores are all equal *)

Lemma float_squeezed_high lo hi s :
  Float.leb lo s = true -> Float.leb s hi = true -> Float.eqb lo hi = true ->
  Float.eqb s hi = true.
Proof. float_cases lo; float_cases hi; float_cases s; float_order. Qed.

Lemma float_squeezed_low lo hi s :
  Float.leb lo s = true -> Float.leb s hi = true -> Float.eqb lo hi = true ->
  Float.eqb s lo = true.
Proof. float_cases lo; float_cases hi; float_cases s; float_order. Qed.

Lemma first_match_head s rest x i :
  py_eq s x = true -> first_match (s :: rest) x i -> i = 0.
Proof.
  intros Hs [_ Hbefore]. destruct i as [|i]; [reflexivity|].
  rewrite (Hbefore 0 s) in Hs; [discriminate | lia | reflexivity].
Qed.

(** X11: when the least and the greatest score reported for a group are equal, the
    comment reported with each is the first comment of the group. *)
Theorem equal_extremes_report_the_first_comment
    analyzer P comments method r key summary :
  analyzer_bounded analyzer -> pipeline_bounded P ->
  comments_sentiment_analysis analyzer P comments method = Ok r ->
  dict_get r key = Some summary ->
  Float.eqb (min_sentiment summary) (max_sentiment summary) = true ->
  exists value,
    In (key, value) comments /\
    nth_error value 0 = Some (max_sentiment_comment summary) /\
    nth_error value 0 = Some (min_sentiment_comment summary).
Proof.
  intros HA HP H Hget Heq.
  destruct (comments_sentiment_analysis_entry _ _ _ _ _ _ _ H Hget)
    as [value [Hin [_ Hs]]].
  exists value. split; [exact Hin|].
  pose proof (scorer_of_in_unit analyzer P method value HA HP) as Hunit.
  remember (scorer_of analyzer P method value) as scores eqn:Escores.
  apply summarise_inv in Hs
    as [Hne [_ [Hmax [Hmin [[i [Hi Hci]] [j [Hj Hcj]]]]]]].
  assert (Hnan : Forall (fun s => Float.is_nan s = false) scores).
  { eapply Forall_impl; [|exact Hunit]. intros s. apply in_unit_not_nan. }
  pose proof (py_max_upper _ _ Hnan Hmax) as Hupper.
  pose proof (py_min_lower _ _ Hnan Hmin) as Hlower.
  destruct scores as [|s0 rest]; [congruence|].
  inversion Hupper as [|? ? Hhi _]; subst. inversion Hlower as [|? ? Hlo _]; subst.
  assert (Emax : py_eq s0 (max_sentiment summary) = true).
  { unfold py_eq. rewrite (float_squeezed_high _ _ _ Hlo Hhi Heq). apply orb_true_r. }
  assert (Emin : py_eq s0 (min_sentiment summary) = true).
  { unfold py_eq. rewrite (float_squeezed_low _ _ _ Hlo Hhi Heq). apply orb_true_r. }
  rewrite (first_match_head _ _ _ _ Emax Hi) in Hci.
  rewrite (first_match_head _ _ _ _ Emin Hj) in Hcj.
  auto.
Qed.

(** ** The range of the extremes *)

(** X12: under the contracts of the libraries, the greatest and the least score
    reported for a group are in [-1, 1]. *)
Theorem reported_extremes_are_in_range
    analyzer P comments method r key summary :
  analyzer_bounded analyzer -> pipeline_bounded P ->
  comments_sentiment_analysis analyzer P comments method = Ok r ->
  dict_get r key = Some summary ->
  Float.in_unit (max_sentiment summary) = true /\
  Float.in_unit (min_sentiment summary) = true.
Proof.
  intros HA HP H Hget.
  destruct (comments_sentiment_analysis_entry _ _ _ _ _ _ _ H Hget)
    as [value [_ [_ Hs]]].
  pose proof (scorer_of_in_unit analyzer P method value HA HP) as Hunit.
  apply summarise_inv in Hs as [_ [_ [Hmax [Hmin _]]]].
  rewrite Forall_forall in Hunit.
  split; apply Hunit; [now apply py_max_In | now apply py_min_In].
Qed.

(** ** The properties at work on the samples *)

Lemma sample_months_wf : dict_wf Sample.months.
Proof. repeat constructor; simpl; intuition discriminate. Qed.

(** "great" and "terrible" are reported with their own scores. *)
Lemma vader_reported_comments_witness :
  exists r summary,
    Demo.analyse Sample.months "vader" = Ok r /\
    dict_get r "2023-01" = Some summary /\
    max_sentiment_comment summary = "great" /\
    py_eq (compound (polarity_scores Demo.analyzer (max_sentiment_comment summary)))
          (max_sentiment summary) = true /\
    py_eq (compound (polarity_scores Demo.analyzer (min_sentiment_comment summary)))
          (min_sentiment summary) = true.
Proof.
  eexists. eexists. split; [vm_compute; reflexivity|].
  split; [reflexivity|]. split; [reflexivity|].
  eapply (vader_reported_comments_have_reported_scores
           Demo.analyzer Demo.sentiment_pipeline Sample.months _ "2023-01").
  - vm_compute. reflexivity.
  - reflexivity.
Defined.

(** The entry of "2023-01" among three groups is its entry alone. *)
Lemma entries_witness :
  exists r summary,
    Demo.analyse Sample.months "vader" = Ok r /\
    dict_get r "2023-01" = Some summary /\
    Demo.analyse [("2023-01", ["great"; "terrible"])] "vader"
    = Ok [("2023-01", summary)].
Proof.
  eexists. eexists. split; [vm_compute; reflexivity|].
  match goal with
  | |- dict_get ?r _ = _ /\ _ =>
      assert (H : Demo.analyse Sample.months "vader" = Ok r)
        by (vm_compute; reflexivity)
  end.
  split; [reflexivity|].
  destruct (proj1 (entries_are_the_analyses_of_the_single_groups
                     Demo.analyzer Demo.sentiment_pipeline Sample.months "vader"
                     _ "2023-01" _ sample_months_wf H)
                  eq_refl)
    as [value [Hv Hsingle]].
  vm_compute in Hv. injection Hv as <-. exact Hsingle.
Defined.

(** "2023-01" has comments and is a key of the result. *)
Lemma result_keys_witness :
  exists r,
    Demo.analyse Sample.months "vader" = Ok r /\
    In "2023-01" (dict_keys r).
Proof.
  eexists. split; [vm_compute; reflexivity|].
  match goal with
  | |- In _ (dict_keys ?r) =>
      assert (H : Demo.analyse Sample.months "vader" = Ok r)
        by (vm_compute; reflexivity)
  end.
  apply (proj2 (result_keys_are_the_groups_with_comments
                  Demo.analyzer Demo.sentiment_pipeline Sample.months "vader"
                  _ "2023-01" sample_months_wf eq_refl H)).
  exists ["great"; "terrible"]. split; [reflexivity | discriminate].
Defined.

(** A group of two short comments under "ml". *)
Lemma ml_reported_comments_witness :
  exists r summary,
    Demo.analyse [("2023-01", ["bad"; "good"])] "ml" = Ok r /\
    dict_get r "2023-01" = Some summary /\
    max_sentiment_comment summary = "good" /\
    py_eq (signed_score (classification_of Demo.sentiment_pipeline
                           (max_sentiment_comment summary)))
          (max_sentiment summary) = true /\
    py_eq (signed_score (classification_of Demo.sentiment_pipeline
                           (min_sentiment_comment summary)))
          (min_sentiment summary) = true.
Proof.
  eexists. eexists. split; [vm_compute; reflexivity|].
  split; [reflexivity|]. split; [reflexivity|].
  eapply (ml_reported_comments_have_reported_scores_when_none_is_skipped
           Demo.analyzer Demo.sentiment_pipeline
           [("2023-01", ["bad"; "good"])] _ "2023-01").
  - vm_compute. reflexivity.
  - reflexivity.
  - intros value [Heq|[]]. injection Heq as <-.
    repeat constructor.
Defined.

(** Two of the three groups change places. *)
Lemma order_of_the_groups_witness :
  Demo.analyse Sample.months_reordered "vader" = Demo.analyse Sample.months "vader".
Proof.
  apply (outcome_does_not_depend_on_the_order_of_the_groups
           Demo.analyzer Demo.sentiment_pipeline Sample.months Sample.months_reordered).
  - repeat constructor; simpl; intuition discriminate.
  - apply perm_swap.
Defined.

(** With the comment of 510 tokens and without it, the same numbers. *)
Lemma skipped_comments_witness :
  exists r r',
    Demo.analyse Sample.with_oversized "ml" = Ok r /\
    Demo.analyse (drop_oversized Demo.sentiment_pipeline Sample.with_oversized) "ml"
    = Ok r' /\
    Forall2 same_numbers r r'.
Proof.
  destruct (Demo.analyse Sample.with_oversized "ml") as [r|e] eqn:H;
    [|vm_compute in H; discriminate].
  destruct (skipped_comments_do_not_change_the_numbers
              Demo.analyzer Demo.sentiment_pipeline Sample.with_oversized r H)
    as [r' [H' Hsame]].
  exists r, r'. auto.
Defined.

(** Two neutral comments: the first is reported twice. *)
Lemma equal_extremes_witness :
  exists value,
    In ("2023-01", value) Sample.neutral /\
    nth_error value 0 = Some "meh" /\
    nth_error value 0 = Some "meh".
Proof.
  apply (equal_extremes_report_the_first_comment
           Demo.analyzer Demo.sentiment_pipeline Sample.neutral "vader"
           [("2023-01",
             {| avg_sentiment := Float.zero;
                max_sentiment_comment := "meh";
                max_sentiment := Float.zero;
                min_sentiment_comment := "meh";
                min_sentiment := Float.zero |})]
           "2023-01"
           {| avg_sentiment := Float.zero;
              max_sentiment_comment := "meh";
              max_sentiment := Float.zero;
              min_sentiment_comment := "meh";
              min_sentiment := Float.zero |}).
  - exact demo_analyzer_bounded.
  - exact demo_pipeline_bounded.
  - vm_compute. reflexivity.
  - reflexivity.
  - reflexivity.
Defined.

(** The extremes of the group of "great" and "terrible". *)
Lemma reported_extremes_witness :
  Float.in_unit Demo.great_score = true /\
  Float.in_unit Demo.terrible_score = true.
Proof.
  eapply (reported_extremes_are_in_range
            Demo.analyzer Demo.sentiment_pipeline
            [("2023-01", ["great"; "terrible"])] "vader"
            [("2023-01",
              {| avg_sentiment := S754_finite false 5339467718210460 (-56);
                 max_sentiment_comment := "great";
                 max_sentiment := Demo.great_score;
                 min_sentiment_comment := "terrible";
                 min_sentiment := Demo.terrible_score |})]
            "2023-01"
            {| avg_sentiment := S754_finite false 5339467718210460 (-56);
               max_sentiment_comment := "great";
               max_sentiment := Demo.great_score;
               min_sentiment_comment := "terrible";
               min_sentiment := Demo.terrible_score |}).
  - exact demo_analyzer_bounded.
  - exact demo_pipeline_bounded.
  - vm_compute. reflexivity.
  - reflexivity.
Defined.
